(** * manim-code-blocks: the markup generation of [CodeBlock]

    A shallow embedding of [src/manim_code_blocks.py]:
    - [Theme] and [Theme.color_for],
    - [ProgrammingLanguage.__init__] and the module's top-level statements,
    - the part of [CodeBlock.__init__] that builds the Pango markup string.

    Python exceptions are values of [exn] carried by [result]; Python [int]
    is [Z]; Python [str] is [string] (the UTF-8 bytes; every character the
    code inspects is ASCII); a [dict] iterated in insertion order is an
    association list, a [dict] that is only indexed is a [gmap]. *)

From Stdlib Require Import ZArith Ascii String List Lia.
From stdpp Require Import base option list strings gmap.

Local Open Scope Z_scope.
Local Open Scope string_scope.

(** ** Exceptions *)

Inductive exn : Type :=
| ZeroDivisionError
| IndexError
| AttributeError (obj attr : string)
| KeyError (key : string)
| URLError (reason : string)
| JSONDecodeError.

Inductive result (A : Type) : Type :=
| Ok (a : A)
| Raise (e : exn).

Arguments Ok {A} a.
Arguments Raise {A} e.

#[global] Instance result_ret : MRet result := fun A a => Ok a.

#[global] Instance result_bind : MBind result := fun A B k m =>
  match m with
  | Ok a => k a
  | Raise e => Raise e
  end.

(** [for x in xs: st = body st x], stopping at the first exception. *)
Fixpoint for_each {S A : Type} (body : S -> A -> result S) (xs : list A) (st : S)
  : result S :=
  match xs with
  | [] => Ok st
  | x :: xs' => st' ← body st x; for_each body xs' st'
  end.

(** ** Python built-ins used by the module *)

Module Py.

(** [s.startswith(p)] *)
Definition startswith (s p : string) : bool := String.prefix p s.

(** [s.split(sep)] for a one-character separator: [n] separators give
    [n + 1] pieces, and the empty string gives one empty piece. *)
Fixpoint split (sep : ascii) (s : string) : list string :=
  match s with
  | EmptyString => [EmptyString]
  | String c s' =>
      if Ascii.eqb c sep then EmptyString :: split sep s'
      else match split sep s' with
           | [] => [String c EmptyString]
           | p :: ps => String c p :: ps
           end
  end.

(** [sep.join(parts)] with the empty separator *)
Definition join (parts : list string) : string := String.concat EmptyString parts.

(** [re.sub(pat, repl, s)] for a pattern that is one literal character:
    every occurrence of the character is replaced by [repl]. *)
Fixpoint regex_sub (pat : ascii) (repl : string) (s : string) : string :=
  match s with
  | EmptyString => EmptyString
  | String c s' =>
      if Ascii.eqb c pat then repl +:+ regex_sub pat repl s'
      else String c (regex_sub pat repl s')
  end.

(** [len(l)] *)
Definition len {A : Type} (l : list A) : Z := Z.of_nat (length l).

(** [a % b] on integers: the result has the sign of [b]. *)
Definition mod_ (a b : Z) : result Z :=
  if Z.eqb b 0 then Raise ZeroDivisionError else Ok (a mod b).

(** [l[i]]: negative indices count from the end. *)
Definition getitem {A : Type} (l : list A) (i : Z) : result A :=
  let j := if Z.ltb i 0 then i + len l else i in
  if Z.ltb j 0 then Raise IndexError
  else match l !! Z.to_nat j with
       | Some x => Ok x
       | None => Raise IndexError
       end.

End Py.

(** ** [tokenize_all.Token] *)

Record Token : Type := mkToken { type : string; value : string }.

(** ** [Theme] *)

(** An element of a colour's list: a token type, or a callable.  A callable
    never compares equal to a [str], so [token.type in value] skips it. *)
Inductive matcher : Type :=
| TypeName (name : string)
| Callable (id : nat).

Definition matches (ty : string) (m : matcher) : bool :=
  match m with
  | TypeName name => String.eqb ty name
  | Callable _ => false
  end.

(** [ty in value] *)
Definition type_in (ty : string) (value : list matcher) : bool :=
  existsb (matches ty) value.

Record Theme : Type := mkTheme {
  colors : list (string * list matcher);
  group_matchers : list string
}.

Module Theme_.

(** [Theme.color_for]: the first key, in the dict's order, whose list
    contains the token's type. *)
Fixpoint color_for_items (items : list (string * list matcher)) (token : Token)
  : string :=
  match items with
  | [] => "#FFFFFF"
  | (key, value) :: rest =>
      if type_in (type token) value then key else color_for_items rest token
  end.

Definition color_for (self : Theme) (token : Token) : string :=
  color_for_items (colors self) token.

End Theme_.

(** ** [tokenize_all.TokenizableLanguage]

    The tokenizers live in the [tokenize_all] package; the module only calls
    [tokenize(line)] on them and iterates over the tokens it yields.  A
    tokenizer is taken here as a function that returns the tokens of a line:
    a call of [tokenize] that raises aborts the constructor at line 135,
    before anything is appended for that line, and the statements below speak
    of the lines the tokenizer returns tokens for. *)

Record TokenizableLanguage : Type := mkLanguage {
  tokenize : string -> list Token
}.

(** ** The module's environment

    [tokenize_all] is the namespace [getattr] reads (an attribute may be
    bound to [None]); [language_colors] is the decoded JSON object, each
    entry being an object whose values are strings or [null]. *)

Record Env : Type := mkEnv {
  tokenize_all : gmap string (option TokenizableLanguage);
  language_colors : gmap string (gmap string (option string))
}.

(** ** [ProgrammingLanguage] *)

Record ProgrammingLanguage : Type := mkProgrammingLanguage {
  name : string;
  color : option string;
  language : option TokenizableLanguage
}.

Module ProgrammingLanguage_.

(** [getattr(module, attr)] with no default *)
Definition getattr (module : gmap string (option TokenizableLanguage)) (attr : string)
  : result (option TokenizableLanguage) :=
  match module !! attr with
  | Some v => Ok v
  | None => Raise (AttributeError "tokenize_all" attr)
  end.

(** [d[key]] on a dict *)
Definition dict_getitem {V : Type} (d : gmap string V) (key : string) : result V :=
  match d !! key with
  | Some v => Ok v
  | None => Raise (KeyError key)
  end.

(** [tokenize_name if tokenize_name else name]: [None] and the empty
    string are both falsy. *)
Definition attr_name (name : string) (tokenize_name : option string) : string :=
  match tokenize_name with
  | Some s => if String.eqb s EmptyString then name else s
  | None => name
  end.

(** [ProgrammingLanguage.__init__]: the object built and the lines
    printed, or the exception raised. *)
Definition init (env : Env) (name : string) (tokenize_name : option string)
  : result (ProgrammingLanguage * list string) :=
  lang ← getattr (tokenize_all env) (attr_name name tokenize_name);
  entry ← dict_getitem (language_colors env) name;
  col ← dict_getitem entry "color";
  let out1 :=
    match col with
    | None => ["Warning: no color found for " +:+ name]
    | Some _ => []
    end in
  let out2 :=
    match lang with
    | None => ["Warning: no tokenization found for " +:+ name]
    | Some _ => []
    end in
  Ok (mkProgrammingLanguage name col lang, (out1 ++ out2)%list).

End ProgrammingLanguage_.

(** ** [CodeBlock.__init__]: the markup string *)

Module CodeBlock.

Definition dquote : string := String (ascii_of_nat 34) EmptyString.
Definition LF : ascii := ascii_of_nat 10.
Definition CR : string := String (ascii_of_nat 13) EmptyString.

(** ['<span foreground="' + color + '">' + body + '</span>'] *)
Definition span (color body : string) : string :=
  "<span foreground=" +:+ dquote +:+ color +:+ dquote +:+ ">" +:+ body +:+ "</span>".

(** [theme.group_matchers[group_count % len(theme.group_matchers)]] *)
Definition group_color (theme : Theme) (group_count : Z) : result string :=
  i ← Py.mod_ group_count (Py.len (group_matchers theme));
  Py.getitem (group_matchers theme) i.

(** The three substitutions of the last branch, in the code's order. *)
Definition safe_value (v : string) : string :=
  let s1 := Py.regex_sub "&" "&amp;" v in
  let s2 := Py.regex_sub "<" "&lt;" s1 in
  Py.regex_sub ">" "&gt;" s2.

(** The loop's state: [group_count] and [finished]. *)
Definition state : Type := Z * list string.

(** The body of [for token in tokens]. *)
Definition render_token (theme : Theme) (st : state) (token : Token) : result state :=
  let '(group_count, finished) := st in
  if Py.startswith (type token) "left" then
    c ← group_color theme group_count;
    Ok (group_count + 1, (finished ++ [span c (value token)])%list)
  else if Py.startswith (type token) "right" then
    let group_count := group_count - 1 in
    c ← group_color theme group_count;
    Ok (group_count, (finished ++ [span c (value token)])%list)
  else if String.eqb (type token) "whitespace" then
    Ok (group_count, (finished ++ [value token])%list)
  else
    Ok (group_count,
        (finished ++ [span (Theme_.color_for theme token) (safe_value (value token))])%list).

(** The inner loop over one line's tokens. *)
Definition render_tokens (theme : Theme) (tokens : list Token) (st : state)
  : result state :=
  for_each (render_token theme) tokens st.

(** The body of [for line in lines]. *)
Definition render_line (theme : Theme) (lang : TokenizableLanguage)
    (st : state) (line : string) : result state :=
  '(group_count, finished) ← render_tokens theme (tokenize lang line) st;
  Ok (group_count, (finished ++ [CR])%list).

(** The outer loop, from any state. *)
Definition render_lines (theme : Theme) (lang : TokenizableLanguage)
    (lines : list string) (st : state) : result state :=
  for_each (render_line theme lang) lines st.

(** [finished_text], for both branches of [if language]. *)
Definition finished_text (text : string) (language' : option ProgrammingLanguage)
    (theme : Theme) : result string :=
  match language' with
  | Some pl =>
      let lines := Py.split LF text in
      match language pl with
      | None => Raise (AttributeError "NoneType" "tokenize")
      | Some lang =>
          '(_, finished) ← render_lines theme lang lines (0, []);
          Ok (Py.join finished)
      end
  | None => Ok (span "#FFFFFF" text)
  end.

(** The string handed to [MarkupText]. *)
Definition markup_source (text : string) (language' : option ProgrammingLanguage)
    (theme : Theme) (font : string) : result string :=
  body ← finished_text text language' theme;
  Ok ("<span font=" +:+ dquote +:+ font +:+ dquote +:+ ">" +:+ body +:+ "</span>").

End CodeBlock.

(** ** [CodeBlock]: attributes and animations

    The mobjects and the animations are manim's: the module stores the
    mobjects it has built, hands them to [VGroup.__init__] and wraps them in
    animations.  [Mob] stands for a mobject, [K] for the keyword arguments
    passed on to each animation. *)

Record CodeBlockObj (Mob : Type) : Type := mkCodeBlockObj {
  submobjects : list Mob;
  code : Mob;
  title : option Mob;
  code_background : Mob;
  title_background : option Mob
}.

Arguments mkCodeBlockObj {Mob}.
Arguments submobjects {Mob}.
Arguments code {Mob}.
Arguments title {Mob}.
Arguments code_background {Mob}.
Arguments title_background {Mob}.

Inductive Animation (Mob K : Type) : Type :=
| FadeIn (target : Mob) (kwargs : K)
| AddTextLetterByLetter (target : Mob) (kwargs : K)
| FadeOut (target : Mob) (kwargs : K)
| Uncreate (target : Mob) (kwargs : K).

Arguments FadeIn {Mob K}.
Arguments AddTextLetterByLetter {Mob K}.
Arguments FadeOut {Mob K}.
Arguments Uncreate {Mob K}.

Module Animations.

(** Lines 164-186 of [CodeBlock.__init__]: the children given to
    [VGroup.__init__] and the attributes set, from the mobjects built
    before ([lang_name] and [lang_background] exist only with a language). *)
Definition init_attrs {Mob : Type} (language' : option ProgrammingLanguage)
    (background_rect markup lang_background lang_name : Mob) : CodeBlockObj Mob :=
  match language' with
  | Some _ =>
      {| submobjects := [background_rect; markup; lang_background; lang_name];
         code := markup;
         title := Some lang_name;
         code_background := background_rect;
         title_background := Some lang_background |}
  | None =>
      {| submobjects := [background_rect; markup];
         code := markup;
         title := None;
         code_background := background_rect;
         title_background := None |}
  end.

(** [getattr(self, 'title', None) and getattr(self, 'title_background', None)]
    as a condition: [None] is falsy, a mobject is as truthy as manim says. *)
Definition has_title {Mob : Type} (truthy : Mob -> bool) (self : CodeBlockObj Mob)
  : option (Mob * Mob) :=
  match title self with
  | Some t =>
      if truthy t then
        match title_background self with
        | Some tb => if truthy tb then Some (t, tb) else None
        | None => None
        end
      else None
  | None => None
  end.

(** [CodeBlock.create] *)
Definition create {Mob K : Type} (truthy : Mob -> bool) (self : CodeBlockObj Mob)
    (kwargs : K) : list (Animation Mob K) :=
  match has_title truthy self with
  | Some (t, tb) =>
      [FadeIn (code_background self) kwargs;
       AddTextLetterByLetter (code self) kwargs;
       FadeIn tb kwargs;
       AddTextLetterByLetter t kwargs]
  | None =>
      [FadeIn (code_background self) kwargs;
       AddTextLetterByLetter (code self) kwargs]
  end.

(** [CodeBlock.uncreate] *)
Definition uncreate {Mob K : Type} (truthy : Mob -> bool) (self : CodeBlockObj Mob)
    (kwargs : K) : list (Animation Mob K) :=
  match has_title truthy self with
  | Some (t, tb) =>
      [FadeOut (code_background self) kwargs;
       Uncreate (code self) kwargs;
       FadeOut tb kwargs;
       Uncreate t kwargs]
  | None =>
      [FadeOut (code_background self) kwargs;
       Uncreate (code self) kwargs]
  end.

End Animations.

(** ** The module's top-level statements *)

(** [OneDark]; [GRAY_C] is a colour constant of manim. *)
Definition OneDark (GRAY_C : string) : Theme := {|
  colors := [
    ("#C678DD", [TypeName "keyword"; TypeName "directive"]);
    ("#61AFEF", [TypeName "function"]);
    ("#E06C75", [TypeName "identifier"]);
    ("#98C379", [TypeName "string"]);
    ("#56B6C2", [TypeName "symbol"]);
    ("#D19A66", [TypeName "number"; TypeName "keyword literal"]);
    ("#E5C07B", [TypeName "class name"]);
    (GRAY_C, [TypeName "comment"])
  ];
  group_matchers := ["#D19A66"; "#C678DD"; "#56B6C2"]
|}.

(** What the interpreter that imports the module provides: the network
    ([urlopen(url).read()]), [json.loads], and the [tokenize_all] module. *)
Record World : Type := mkWorld {
  urlopen_read : string -> result string;
  json_loads : string -> result (gmap string (gmap string (option string)));
  tokenize_all_module : gmap string (option TokenizableLanguage)
}.

Definition colors_url : string :=
  "https://raw.githubusercontent.com/ozh/github-colors/master/colors.json".

(** The assignments [C = ProgrammingLanguage("C")], ... at the end of the
    module: variable, [name], [tokenize_name]. *)
Definition declarations : list (string * string * option string) := [
  ("C", "C", None);
  ("Cpp", "C++", Some "Cpp");
  ("CSharp", "C#", Some "CSharp");
  ("Fortran", "Fortran", None);
  ("Go", "Go", None);
  ("Haskell", "Haskell", None);
  ("Java", "Java", None);
  ("JavaScript", "JavaScript", None);
  ("Lua", "Lua", None);
  ("Python", "Python", None);
  ("Ruby", "Ruby", None);
  ("Rust", "Rust", None);
  ("SQL", "SQL", None);
  ("TypeScript", "TypeScript", None)
].

(** The namespace of the loaded module, and what loading printed. *)
Record Loaded : Type := mkLoaded {
  loaded_colors : gmap string (gmap string (option string));
  loaded_languages : list (string * ProgrammingLanguage);
  loaded_stdout : list string
}.

Definition declare (env : Env) (m : Loaded) (d : string * string * option string)
  : result Loaded :=
  let '(var, name, tokenize_name) := d in
  '(pl, out) ← ProgrammingLanguage_.init env name tokenize_name;
  Ok (mkLoaded (loaded_colors m)
               (loaded_languages m ++ [(var, pl)])%list
               (loaded_stdout m ++ out)%list).

(** Importing the module: line 56 first, then the declarations. *)
Definition module_load (w : World) : result Loaded :=
  body ← urlopen_read w colors_url;
  table ← json_loads w body;
  let env := mkEnv (tokenize_all_module w) table in
  for_each (declare env) declarations (mkLoaded table [] []).

(** ** Fixtures for running the definitions on concrete inputs *)

Module Demo.

(** A character-level tokenizer standing in for one of [tokenize_all]:
    brackets, blanks, and everything else as an identifier. *)
Definition classify (c : ascii) : string :=
  if Ascii.eqb c "(" then "left parentheses"
  else if Ascii.eqb c ")" then "right parentheses"
  else if Ascii.eqb c "[" then "left bracket"
  else if Ascii.eqb c "]" then "right bracket"
  else if Ascii.eqb c " " then "whitespace"
  else if Ascii.eqb c "<" then "symbol"
  else "identifier".

Fixpoint scan (s : string) : list Token :=
  match s with
  | EmptyString => []
  | String c s' => mkToken (classify c) (String c EmptyString) :: scan s'
  end.

Definition lang : TokenizableLanguage := mkLanguage scan.

Definition theme : Theme := OneDark "#888888".

Definition entry (c : option string) : gmap string (option string) :=
  {[ "color" := c ]}.

(** A table with two entries, one of them with a [null] colour. *)
Definition table : gmap string (gmap string (option string)) :=
  {[ "C" := entry (Some "#555555"); "Lua" := entry None ]}.

Definition env : Env :=
  mkEnv {[ "C" := Some lang; "Lua" := Some lang; "Cpp" := Some lang ]} table.

(** A table and a [tokenize_all] that cover every declaration. *)
Definition full_table : gmap string (gmap string (option string)) :=
  list_to_map (map (fun d => (snd (fst d), entry (Some "#000000"))) declarations).

Definition full_module : gmap string (option TokenizableLanguage) :=
  list_to_map
    (map (fun d => (ProgrammingLanguage_.attr_name (snd (fst d)) (snd d), Some lang))
         declarations).

Definition online : World :=
  mkWorld (fun url => if String.eqb url colors_url then Ok "{}"
                      else Raise (URLError "not found"))
          (fun _ => Ok full_table) full_module.

Definition offline : World :=
  mkWorld (fun _ => Raise (URLError "no route to host"))
          (fun _ => Ok full_table) full_module.

End Demo.

(** * Properties *)

(** ** Bracket tokens and the quantities the statements use *)

Definition is_left (tok : Token) : bool := Py.startswith (type tok) "left".
Definition is_right (tok : Token) : bool := Py.startswith (type tok) "right".

(** Number of tokens of a list whose type starts with [left], resp. [right]. *)
Definition lefts (toks : list Token) : Z := Py.len (List.filter is_left toks).
Definition rights (toks : list Token) : Z := Py.len (List.filter is_right toks).

(** The change of the counter over one token. *)
Definition delta (tok : Token) : Z :=
  if is_left tok then 1 else if is_right tok then -1 else 0.

(** All the tokens of a list of lines, in order. *)
Definition all_tokens (lang : TokenizableLanguage) (lines : list string) : list Token :=
  concat (map (tokenize lang) lines).

(** Number of occurrences of a character in a string. *)
Fixpoint occurrences (c : ascii) (s : string) : nat :=
  match s with
  | EmptyString => O
  | String a s' => if Ascii.eqb a c then S (occurrences c s') else occurrences c s'
  end.

(** The loop seen as one stream: the tokens of each line, each line closed
    by an end-of-line mark. *)
Inductive item : Type :=
| Tok (t : Token)
| EOL.

Definition line_items (lang : TokenizableLanguage) (line : string) : list item :=
  (map Tok (tokenize lang line) ++ [EOL])%list.

Definition items (lang : TokenizableLanguage) (lines : list string) : list item :=
  concat (map (line_items lang) lines).

Definition render_item (theme : Theme) (st : CodeBlock.state) (it : item)
  : result CodeBlock.state :=
  match it with
  | Tok t => CodeBlock.render_token theme st t
  | EOL => Ok (fst st, (snd st ++ [CodeBlock.CR])%list)
  end.

Definition item_delta (it : item) : Z :=
  match it with
  | Tok t => delta t
  | EOL => 0
  end.

Fixpoint depth_change (its : list item) : Z :=
  match its with
  | [] => 0
  | it :: its' => item_delta it + depth_change its'
  end.

(** Well-nested streams: every opener is closed later, at the same depth.
    The kinds of the brackets play no part, as in the code. *)
Inductive balanced : list item -> Prop :=
| balanced_nil : balanced []
| balanced_eol its : balanced its -> balanced (EOL :: its)
| balanced_plain t its :
    is_left t = false -> is_right t = false -> balanced its -> balanced (Tok t :: its)
| balanced_pair l mid r its :
    is_left l = true -> is_right r = true -> balanced mid -> balanced its ->
    balanced (Tok l :: mid ++ Tok r :: its).

(** One-pass escaping, character by character. *)
Definition escape_char (c : ascii) : string :=
  if Ascii.eqb c "&" then "&amp;"
  else if Ascii.eqb c "<" then "&lt;"
  else if Ascii.eqb c ">" then "&gt;"
  else String c EmptyString.

Fixpoint escape (s : string) : string :=
  match s with
  | EmptyString => EmptyString
  | String c s' => escape_char c +:+ escape s'
  end.

(** The same interpreter with the network unreachable. *)
Definition cut_network (w : World) : World :=
  mkWorld (fun _ => Raise (URLError "network is unreachable"))
          (json_loads w) (tokenize_all_module w).

(** The animation that undoes an animation. *)
Definition inverse {Mob K : Type} (a : Animation Mob K) : Animation Mob K :=
  match a with
  | FadeIn m kw => FadeOut m kw
  | AddTextLetterByLetter m kw => Uncreate m kw
  | FadeOut m kw => FadeIn m kw
  | Uncreate m kw => AddTextLetterByLetter m kw
  end.

Definition target {Mob K : Type} (a : Animation Mob K) : Mob :=
  match a with
  | FadeIn m _ | AddTextLetterByLetter m _ | FadeOut m _ | Uncreate m _ => m
  end.

(** Whether some token of a list is a bracket token. *)
Definition has_bracket (toks : list Token) : bool :=
  existsb (fun tok => is_left tok || is_right tok) toks.

(** The lines [ProgrammingLanguage.__init__] prints for the values found. *)
Definition expected_warnings (nm : string) (col : option string)
    (lang : option TokenizableLanguage) : list string :=
  (match col with
   | None => ["Warning: no color found for " +:+ nm]
   | Some _ => []
   end ++
   match lang with
   | None => ["Warning: no tokenization found for " +:+ nm]
   | Some _ => []
   end)%list.

(** A declaration whose two lookups succeed in an environment. *)
Definition resolves (env : Env) (d : string * string * option string) : Prop :=
  let '(_, nm, tokenize_name) := d in
  is_Some (tokenize_all env !! ProgrammingLanguage_.attr_name nm tokenize_name)
  /\ exists entry, language_colors env !! nm = Some entry /\ is_Some (entry !! "color").

(** What a declaration binds its variable to. *)
Definition bound_by (env : Env) (d : string * string * option string)
    (b : string * ProgrammingLanguage) : Prop :=
  let '(var, nm, tokenize_name) := d in
  fst b = var
  /\ name (snd b) = nm
  /\ tokenize_all env !! ProgrammingLanguage_.attr_name nm tokenize_name
     = Some (language (snd b))
  /\ exists entry, language_colors env !! nm = Some entry
                   /\ entry !! "color" = Some (color (snd b)).

(** Characters the last branch of the loop rewrites. *)
Definition special (c : ascii) : bool :=
  Ascii.eqb c "&" || Ascii.eqb c "<" || Ascii.eqb c ">".

(** * Lemmas on the loops *)

Lemma bind_inv {A B : Type} (m : result A) (k : A -> result B) (b : B) :
  m ≫= k = Ok b -> exists a, m = Ok a /\ k a = Ok b.
Proof. destruct m as [a|e]; [eauto|discriminate]. Qed.

Lemma for_each_cons {S A : Type} (body : S -> A -> result S) x xs st :
  for_each body (x :: xs) st =
  match body st x with
  | Ok st' => for_each body xs st'
  | Raise e => Raise e
  end.
Proof. reflexivity. Qed.

Lemma for_each_app {S A : Type} (body : S -> A -> result S) xs ys st :
  for_each body (xs ++ ys) st =
  match for_each body xs st with
  | Ok st' => for_each body ys st'
  | Raise e => Raise e
  end.
Proof.
  revert st. induction xs as [|x xs IH]; intros st; [reflexivity|].
  rewrite <- app_comm_cons, !for_each_cons.
  destruct (body st x); [apply IH|reflexivity].
Qed.

Section Loop.

Import CodeBlock.

Variable theme : Theme.

Abbreviation N := (Py.len (group_matchers theme)).

Lemma left_not_right tok : is_left tok = true -> is_right tok = false.
Proof.
  unfold is_left, is_right, Py.startswith.
  destruct (type tok) as [|a s]; [intros H; discriminate H|].
  change (String.prefix "left" (String a s))
    with (if ascii_dec "l" a then String.prefix "eft" s else false).
  change (String.prefix "right" (String a s))
    with (if ascii_dec "r" a then String.prefix "ight" s else false).
  destruct (ascii_dec "l" a) as [<-|]; [|intros H; discriminate H].
  intros _. destruct (ascii_dec "r" "l") as [E|]; [discriminate E|reflexivity].
Qed.

Lemma lefts_cons tok toks :
  lefts (tok :: toks) = (if is_left tok then 1 else 0) + lefts toks.
Proof.
  unfold lefts, Py.len. simpl. destruct (is_left tok); simpl length; lia.
Qed.

Lemma rights_cons tok toks :
  rights (tok :: toks) = (if is_right tok then 1 else 0) + rights toks.
Proof.
  unfold rights, Py.len. simpl. destruct (is_right tok); simpl length; lia.
Qed.

Lemma net_cons tok toks :
  lefts (tok :: toks) - rights (tok :: toks) = delta tok + (lefts toks - rights toks).
Proof.
  rewrite lefts_cons, rights_cons. unfold delta.
  destruct (is_left tok) eqn:Hl.
  - rewrite (left_not_right _ Hl). lia.
  - destruct (is_right tok); lia.
Qed.

Lemma lefts_app xs ys : lefts (xs ++ ys) = lefts xs + lefts ys.
Proof.
  unfold lefts, Py.len. rewrite List.filter_app, length_app. lia.
Qed.

Lemma rights_app xs ys : rights (xs ++ ys) = rights xs + rights ys.
Proof.
  unfold rights, Py.len. rewrite List.filter_app, length_app. lia.
Qed.

(** *** The colour lookup *)

Lemma len_pos : group_matchers theme <> [] -> 0 < N.
Proof. unfold Py.len. destruct (group_matchers theme); [congruence|simpl; lia]. Qed.

Lemma group_color_nonempty g :
  group_matchers theme <> [] ->
  exists c, group_color theme g = Ok c
            /\ group_matchers theme !! Z.to_nat (g mod N) = Some c.
Proof.
  intros Hne. pose proof (len_pos Hne) as Hpos.
  pose proof (Z.mod_pos_bound g N Hpos) as Hb.
  unfold group_color, Py.mod_.
  destruct (Z.eqb_spec N 0) as [E|_]; [lia|]. simpl.
  unfold Py.getitem.
  destruct (Z.ltb_spec (g mod N) 0) as [?|_]; [lia|].
  destruct (Z.ltb_spec (g mod N) 0) as [?|_]; [lia|].
  destruct (lookup_lt_is_Some_2 (group_matchers theme) (Z.to_nat (g mod N))) as [c Hc].
  { unfold Py.len in *. lia. }
  exists c. rewrite Hc. split; reflexivity.
Qed.

Lemma group_color_raise g e :
  group_color theme g = Raise e -> e = ZeroDivisionError /\ group_matchers theme = [].
Proof.
  destruct (group_matchers theme) as [|c0 l] eqn:E.
  - unfold group_color, Py.mod_. rewrite E. simpl. intros [= <-]. split; reflexivity.
  - intros H. destruct (group_color_nonempty g) as (c & Hc & _); [congruence|].
    congruence.
Qed.

(** *** One token *)

Lemma render_token_inv g f tok g' f' :
  render_token theme (g, f) tok = Ok (g', f') ->
  g' = g + delta tok /\ exists piece, f' = (f ++ [piece])%list.
Proof.
  unfold render_token, delta. fold (is_left tok). fold (is_right tok).
  destruct (is_left tok).
  - destruct (group_color theme g); simpl; intros [= <- <-]; eauto.
  - destruct (is_right tok).
    + destruct (group_color theme (g - 1)); simpl; intros [= <- <-].
      split; [lia|eauto].
    + destruct (String.eqb (type tok) "whitespace"); intros [= <- <-];
        (split; [lia|eauto]).
Qed.

Lemma render_token_raise st tok e :
  render_token theme st tok = Raise e ->
  e = ZeroDivisionError /\ group_matchers theme = [].
Proof.
  destruct st as [g f]. unfold render_token.
  destruct (Py.startswith (type tok) "left").
  - destruct (group_color theme g) eqn:E; simpl; [discriminate|].
    intros [= <-]. eapply group_color_raise, E.
  - destruct (Py.startswith (type tok) "right").
    + destruct (group_color theme (g - 1)) eqn:E; simpl; [discriminate|].
      intros [= <-]. eapply group_color_raise, E.
    + destruct (String.eqb (type tok) "whitespace"); discriminate.
Qed.

(** *** One line's tokens *)

Lemma render_tokens_spec toks : forall g f,
  match render_tokens theme toks (g, f) with
  | Ok (g', f') =>
      g' = g + (lefts toks - rights toks)
      /\ exists chunk, f' = (f ++ chunk)%list /\ length chunk = length toks
  | Raise e => e = ZeroDivisionError /\ group_matchers theme = []
  end.
Proof.
  induction toks as [|tok toks IH]; intros g f.
  - simpl. split; [unfold lefts, rights, Py.len; simpl; lia|].
    exists []. rewrite app_nil_r. split; reflexivity.
  - unfold render_tokens. rewrite for_each_cons.
    destruct (render_token theme (g, f) tok) as [[g1 f1]|e] eqn:E.
    + apply render_token_inv in E as (-> & piece & ->).
      specialize (IH (g + delta tok) (f ++ [piece])%list).
      unfold render_tokens in IH.
      destruct (for_each _ toks _) as [[g' f']|e]; [|exact IH].
      destruct IH as (-> & chunk & -> & Hlen). split.
      * rewrite net_cons. lia.
      * exists (piece :: chunk). rewrite <- app_assoc. simpl. auto.
    + eapply render_token_raise, E.
Qed.

Lemma render_tokens_total toks g f :
  group_matchers theme <> [] ->
  exists chunk,
    render_tokens theme toks (g, f) = Ok (g + (lefts toks - rights toks), (f ++ chunk)%list)
    /\ length chunk = length toks.
Proof.
  intros Hne. pose proof (render_tokens_spec toks g f) as H.
  destruct (render_tokens theme toks (g, f)) as [[g' f']|e].
  - destruct H as (-> & chunk & -> & Hlen). eauto.
  - destruct H as [_ H]. contradiction.
Qed.

(** *** The lines *)

Variable lang : TokenizableLanguage.

Lemma render_line_spec line g f :
  match render_line theme lang (g, f) line with
  | Ok (g', f') =>
      g' = g + (lefts (tokenize lang line) - rights (tokenize lang line))
      /\ exists chunk, f' = (f ++ chunk ++ [CR])%list
                       /\ length chunk = length (tokenize lang line)
  | Raise e => e = ZeroDivisionError /\ group_matchers theme = []
  end.
Proof.
  unfold render_line.
  pose proof (render_tokens_spec (tokenize lang line) g f) as H.
  destruct (render_tokens theme (tokenize lang line) (g, f)) as [[g' f']|e]; simpl.
  - destruct H as (-> & chunk & -> & Hlen). split; [reflexivity|].
    exists chunk. rewrite <- app_assoc. auto.
  - exact H.
Qed.

Lemma all_tokens_cons line lines :
  all_tokens lang (line :: lines) = (tokenize lang line ++ all_tokens lang lines)%list.
Proof. reflexivity. Qed.

Lemma render_lines_spec lines : forall g f,
  match render_lines theme lang lines (g, f) with
  | Ok (g', f') =>
      g' = g + (lefts (all_tokens lang lines) - rights (all_tokens lang lines))
      /\ exists chunks,
           Forall2 (fun line chunk => length chunk = length (tokenize lang line))
                   lines chunks
           /\ f' = (f ++ concat (map (fun chunk => chunk ++ [CR]) chunks))%list
  | Raise e => e = ZeroDivisionError /\ group_matchers theme = []
  end.
Proof.
  induction lines as [|line lines IH]; intros g f.
  - simpl. split; [unfold lefts, rights, Py.len; simpl; lia|].
    exists []. simpl. rewrite app_nil_r. split; [constructor|reflexivity].
  - unfold render_lines. rewrite for_each_cons.
    pose proof (render_line_spec line g f) as H.
    destruct (render_line theme lang (g, f) line) as [[g1 f1]|e]; [|exact H].
    destruct H as (-> & chunk & -> & Hlen).
    specialize (IH (g + (lefts (tokenize lang line) - rights (tokenize lang line)))
                   (f ++ chunk ++ [CR])%list).
    unfold render_lines in IH.
    destruct (for_each _ lines _) as [[g' f']|e]; [|exact IH].
    destruct IH as (-> & chunks & Hall & ->). split.
    + rewrite all_tokens_cons, lefts_app, rights_app. lia.
    + exists (chunk :: chunks). split; [constructor; auto|].
      simpl. rewrite <- !app_assoc. reflexivity.
Qed.

Lemma render_lines_total lines st :
  group_matchers theme <> [] -> exists st', render_lines theme lang lines st = Ok st'.
Proof.
  intros Hne. destruct st as [g f].
  pose proof (render_lines_spec lines g f) as H.
  destruct (render_lines theme lang lines (g, f)) as [st'|e]; [eauto|].
  destruct H as [_ H]. contradiction.
Qed.

End Loop.

(** ** The bracket-depth counter *)

(** C1: over the rendering loop the counter [group_count] goes up by one on
    each token whose type starts with [left], down by one on each token whose
    type starts with [right], and is unchanged on every other token (no type
    starts with both); so after one line it is the counter before the line
    plus the number of left tokens minus the number of right tokens of the
    line, and after several lines the same holds for the tokens of all the
    lines together: nothing resets it between lines.  The only way the loop
    stops early is [ZeroDivisionError], for a theme with no group colours. *)
Theorem group_count_tracks_brackets (theme : Theme) (lang : TokenizableLanguage) :
  (forall tok, is_left tok && is_right tok = false)
  /\ (forall g f tok,
        match CodeBlock.render_token theme (g, f) tok with
        | Ok (g', _) =>
            g' = g + (if is_left tok then 1 else if is_right tok then -1 else 0)
        | Raise e => e = ZeroDivisionError /\ group_matchers theme = []
        end)
  /\ (forall g f line,
        match CodeBlock.render_line theme lang (g, f) line with
        | Ok (g', _) =>
            g' = g + (lefts (tokenize lang line) - rights (tokenize lang line))
        | Raise e => e = ZeroDivisionError /\ group_matchers theme = []
        end)
  /\ (forall g f lines,
        match CodeBlock.render_lines theme lang lines (g, f) with
        | Ok (g', _) =>
            g' = g + (lefts (all_tokens lang lines) - rights (all_tokens lang lines))
        | Raise e => e = ZeroDivisionError /\ group_matchers theme = []
        end).
Proof.
  split; [|split; [|split]].
  - intros tok. destruct (is_left tok) eqn:Hl; [|reflexivity].
    simpl. apply left_not_right, Hl.
  - intros g f tok.
    destruct (CodeBlock.render_token theme (g, f) tok) as [[g' f']|e] eqn:E.
    + apply render_token_inv in E as [-> _]. reflexivity.
    + eapply render_token_raise, E.
  - intros g f line. pose proof (render_line_spec theme lang line g f) as H.
    destruct (CodeBlock.render_line theme lang (g, f) line) as [[g' f']|e];
      [apply H|exact H].
  - intros g f lines. pose proof (render_lines_spec theme lang lines g f) as H.
    destruct (CodeBlock.render_lines theme lang lines (g, f)) as [[g' f']|e];
      [apply H|exact H].
Qed.

(** The counter on a concrete text: two lines, three openers, one closer. *)
Example group_count_two_lines :
  exists f,
    CodeBlock.render_lines Demo.theme Demo.lang ["f(a["; "b]((c"] (0, []) = Ok (3, f).
Proof. eexists. vm_compute. reflexivity. Qed.

(** C10: with a non-empty list of group colours, [group_count % len(...)]
    lies in [[0, N)] for every value of the counter, negative ones included,
    so the colour lookup succeeds and the loop over any token list, balanced
    or not, returns. *)
Theorem group_index_in_range (theme : Theme) :
  group_matchers theme <> [] ->
  (forall g,
     0 <= g mod Py.len (group_matchers theme) < Py.len (group_matchers theme)
     /\ exists c, CodeBlock.group_color theme g = Ok c
                  /\ group_matchers theme !! Z.to_nat (g mod Py.len (group_matchers theme))
                     = Some c)
  /\ (forall toks st, exists st', CodeBlock.render_tokens theme toks st = Ok st')
  /\ (forall lang lines st, exists st', CodeBlock.render_lines theme lang lines st = Ok st').
Proof.
  intros Hne. split; [|split].
  - intros g. split.
    + apply Z.mod_pos_bound, len_pos, Hne.
    + apply group_color_nonempty, Hne.
  - intros toks [g f]. destruct (render_tokens_total theme toks g f Hne) as (chunk & H & _).
    eauto.
  - intros lang lines st. apply render_lines_total, Hne.
Qed.

Lemma group_index_in_range_witness :
  group_matchers Demo.theme <> []
  /\ CodeBlock.group_color Demo.theme (-2) = Ok "#C678DD"
  /\ exists st',
       CodeBlock.render_tokens Demo.theme (Demo.scan "a))]") (0, []) = Ok st'
       /\ fst st' = -3.
Proof.
  assert (Hne : group_matchers Demo.theme <> []) by discriminate.
  destruct (group_index_in_range Demo.theme Hne) as (Hidx & Htoks & _).
  split; [exact Hne|]. split.
  - destruct (Hidx (-2)) as (_ & c & Hc & Hl). rewrite Hc.
    vm_compute in Hl. injection Hl as <-. reflexivity.
  - destruct (Htoks (Demo.scan "a))]") (0, [])) as [st' Hst']. exists st'.
    split; [exact Hst'|]. vm_compute in Hst'. injection Hst' as <-. reflexivity.
Defined.

(** ** Group colours *)

Section Steps.

Import CodeBlock.

Variable theme : Theme.

Lemma right_not_left tok : is_right tok = true -> is_left tok = false.
Proof.
  intros Hr. destruct (is_left tok) eqn:Hl; [|reflexivity].
  apply left_not_right in Hl. congruence.
Qed.

Lemma render_token_left tok g f c :
  is_left tok = true -> group_color theme g = Ok c ->
  render_token theme (g, f) tok = Ok (g + 1, (f ++ [span c (value tok)])%list).
Proof.
  unfold is_left, render_token. intros -> ->. reflexivity.
Qed.

Lemma render_token_right tok g f c :
  is_right tok = true -> group_color theme (g - 1) = Ok c ->
  render_token theme (g, f) tok = Ok (g - 1, (f ++ [span c (value tok)])%list).
Proof.
  intros Hr Hc. pose proof (right_not_left tok Hr) as Hl.
  unfold is_left, is_right, render_token in *. rewrite Hl, Hr, Hc. reflexivity.
Qed.

Lemma render_token_plain tok g f :
  is_left tok = false -> is_right tok = false ->
  exists piece, render_token theme (g, f) tok = Ok (g, (f ++ [piece])%list).
Proof.
  unfold is_left, is_right, render_token. intros -> ->.
  destruct (String.eqb (type tok) "whitespace"); eauto.
Qed.

Lemma render_token_total tok g f :
  group_matchers theme <> [] ->
  exists piece, render_token theme (g, f) tok = Ok (g + delta tok, (f ++ [piece])%list).
Proof.
  intros Hne. unfold delta.
  destruct (is_left tok) eqn:Hl; [|destruct (is_right tok) eqn:Hr].
  - destruct (group_color_nonempty theme g Hne) as (c & Hc & _).
    rewrite (render_token_left tok g f c Hl Hc). eauto.
  - destruct (group_color_nonempty theme (g - 1) Hne) as (c & Hc & _).
    rewrite (render_token_right tok g f c Hr Hc). eauto.
  - destruct (render_token_plain tok g f Hl Hr) as [piece ->].
    rewrite Z.add_0_r. eauto.
Qed.

End Steps.

(** C2, as the code has it: for a theme with at least one group colour, a
    token whose type starts with [left] is appended as the string
    [<span foreground="c">value</span>] where [c] is
    [group_matchers[d % N]], [d] being the counter before the token, and the
    counter becomes [d + 1].  In particular, when the tokens of ["((x))"] are
    two openers, a non-bracket token and two closers, rendering that line from
    depth 0 colours the first opener with [group_matchers[0 % N]], the second
    with [group_matchers[1 % N]], and ends at depth 0.  The strings are
    written out character by character ([034] is the double quote). *)
Theorem left_token_color (theme : Theme) :
  group_matchers theme <> [] ->
  (forall tok g f,
     is_left tok = true ->
     exists c,
       group_matchers theme !! Z.to_nat (g mod Py.len (group_matchers theme)) = Some c
       /\ CodeBlock.render_token theme (g, f) tok
          = Ok (g + 1,
                (f ++ ["<span foreground=" +:+ String "034" (c +:+ String "034"
                         (">" +:+ value tok +:+ "</span>"))])%list))
  /\ (forall lang l1 l2 x r1 r2,
        tokenize lang "((x))" = [l1; l2; x; r1; r2] ->
        is_left l1 = true -> is_left l2 = true ->
        is_left x = false -> is_right x = false ->
        is_right r1 = true -> is_right r2 = true ->
        exists c0 c1 mid,
          group_matchers theme !! Z.to_nat (0 mod Py.len (group_matchers theme)) = Some c0
          /\ group_matchers theme !! Z.to_nat (1 mod Py.len (group_matchers theme)) = Some c1
          /\ CodeBlock.render_line theme lang (0, []) "((x))"
             = Ok (0,
                   ["<span foreground=" +:+ String "034" (c0 +:+ String "034"
                      (">" +:+ value l1 +:+ "</span>"));
                    "<span foreground=" +:+ String "034" (c1 +:+ String "034"
                      (">" +:+ value l2 +:+ "</span>"));
                    mid;
                    "<span foreground=" +:+ String "034" (c1 +:+ String "034"
                      (">" +:+ value r1 +:+ "</span>"));
                    "<span foreground=" +:+ String "034" (c0 +:+ String "034"
                      (">" +:+ value r2 +:+ "</span>"));
                    String "013" EmptyString])).
Proof.
  intros Hne. split.
  - intros tok g f Hl.
    destruct (group_color_nonempty theme g Hne) as (c & Hc & Hlook).
    exists c. split; [exact Hlook|]. exact (render_token_left theme tok g f c Hl Hc).
  - intros lang l1 l2 x r1 r2 Htok Hl1 Hl2 Hx1 Hx2 Hr1 Hr2.
    destruct (group_color_nonempty theme 0 Hne) as (c0 & Hc0 & Hlook0).
    destruct (group_color_nonempty theme 1 Hne) as (c1 & Hc1 & Hlook1).
    destruct (render_token_plain theme x 2
                [CodeBlock.span c0 (value l1); CodeBlock.span c1 (value l2)] Hx1 Hx2)
      as [mid Hmid].
    exists c0, c1, mid. split; [exact Hlook0|]. split; [exact Hlook1|].
    change (CodeBlock.render_line theme lang (0, []) "((x))"
            = Ok (0, [CodeBlock.span c0 (value l1); CodeBlock.span c1 (value l2); mid;
                      CodeBlock.span c1 (value r1); CodeBlock.span c0 (value r2);
                      CodeBlock.CR])).
    unfold CodeBlock.render_line, CodeBlock.render_tokens. rewrite Htok.
    rewrite for_each_cons, (render_token_left theme l1 0 [] c0 Hl1 Hc0).
    rewrite for_each_cons, (render_token_left theme l2 (0 + 1) _ c1 Hl2 Hc1).
    rewrite for_each_cons. simpl app. change (0 + 1 + 1) with 2. rewrite Hmid.
    rewrite for_each_cons, (render_token_right theme r1 2 _ c1 Hr1 Hc1).
    rewrite for_each_cons, (render_token_right theme r2 (2 - 1) _ c0 Hr2 Hc0).
    reflexivity.
Qed.

Lemma left_token_color_witness :
  group_matchers Demo.theme <> []
  /\ CodeBlock.render_token Demo.theme (4, []) (mkToken "left brace" "{")
     = Ok (5, ["<span foreground=" +:+ String "034" ("#C678DD" +:+ String "034"
                 ">{</span>")])
  /\ tokenize Demo.lang "((x))"
     = [mkToken "left parentheses" "("; mkToken "left parentheses" "(";
        mkToken "identifier" "x";
        mkToken "right parentheses" ")"; mkToken "right parentheses" ")"]
  /\ exists rest,
       CodeBlock.render_line Demo.theme Demo.lang (0, []) "((x))"
       = Ok (0, ("<span foreground=" +:+ String "034" ("#D19A66" +:+ String "034"
                   ">(</span>"))
                :: ("<span foreground=" +:+ String "034" ("#C678DD" +:+ String "034"
                      ">(</span>"))
                :: rest).
Proof.
  assert (Hne : group_matchers Demo.theme <> []) by discriminate.
  destruct (left_token_color Demo.theme Hne) as [Hstep Hline].
  split; [exact Hne|]. split; [|split; [reflexivity|]].
  - destruct (Hstep (mkToken "left brace" "{") 4 []) as (c & Hc & Hrun); [reflexivity|].
    vm_compute in Hc. injection Hc as <-. exact Hrun.
  - destruct (Hline Demo.lang (mkToken "left parentheses" "(")
                (mkToken "left parentheses" "(") (mkToken "identifier" "x")
                (mkToken "right parentheses" ")") (mkToken "right parentheses" ")"))
      as (c0 & c1 & mid & H0 & H1 & Hrun); try reflexivity.
    vm_compute in H0. injection H0 as <-.
    vm_compute in H1. injection H1 as <-.
    eexists. exact Hrun.
Defined.

(** C2, as stated, fails for a theme with no group colour: the index
    expression divides by zero and no span is appended. *)
Lemma left_token_no_group_color :
  ~ (forall theme tok g f,
       is_left tok = true ->
       exists c,
         CodeBlock.render_token theme (g, f) tok
         = Ok (g + 1,
               (f ++ ["<span foreground=" +:+ String "034" (c +:+ String "034"
                        (">" +:+ value tok +:+ "</span>"))])%list)).
Proof.
  intros H.
  destruct (H (mkTheme [] []) (mkToken "left parentheses" "(") 0 []) as [c Hc];
    [reflexivity|].
  discriminate Hc.
Qed.

(** ** [Theme.color_for] *)

Lemma type_in_spec (ty : string) (types : list matcher) :
  type_in ty types = true <-> TypeName ty ∈ types.
Proof.
  unfold type_in. rewrite existsb_exists. split.
  - intros (m & Hin & Hm). destruct m as [name|id]; simpl in Hm; [|discriminate].
    apply String.eqb_eq in Hm. subst name. apply list_elem_of_In, Hin.
  - intros Hin. exists (TypeName ty). split; [apply list_elem_of_In, Hin|].
    simpl. apply String.eqb_refl.
Qed.

Lemma color_for_items_default items token :
  (forall key types, (key, types) ∈ items -> TypeName (type token) ∉ types) ->
  Theme_.color_for_items items token = "#FFFFFF".
Proof.
  induction items as [|[key types] rest IH]; intros Hnone; [reflexivity|].
  simpl. destruct (type_in (type token) types) eqn:E.
  - apply type_in_spec in E. exfalso. apply (Hnone key types); [left|exact E].
  - apply IH. intros k ts Hin. apply (Hnone k ts). right. exact Hin.
Qed.

Lemma color_for_items_found items token :
  (exists key types, (key, types) ∈ items /\ TypeName (type token) ∈ types) ->
  exists types,
    (Theme_.color_for_items items token, types) ∈ items
    /\ TypeName (type token) ∈ types.
Proof.
  induction items as [|[key types] rest IH]; intros (k & ts & Hin & Hty).
  - inversion Hin.
  - simpl. destruct (type_in (type token) types) eqn:E.
    + exists types. split; [left|apply type_in_spec, E].
    + destruct IH as (ts' & Hin' & Hty').
      * exists k, ts. split; [|exact Hty].
        apply elem_of_cons in Hin as [Heq|Hin]; [|exact Hin].
        injection Heq as -> ->. apply type_in_spec in Hty. congruence.
      * exists ts'. split; [right; exact Hin'|exact Hty'].
Qed.

(** C5: when no colour list of the theme contains the token's type,
    [color_for] returns ["#FFFFFF"]; when some list contains it, [color_for]
    returns a key of the theme whose list contains it. *)
Theorem color_for_spec (theme : Theme) (token : Token) :
  ((forall key types, (key, types) ∈ colors theme -> TypeName (type token) ∉ types) ->
   Theme_.color_for theme token = "#FFFFFF")
  /\ ((exists key types, (key, types) ∈ colors theme /\ TypeName (type token) ∈ types) ->
      exists types,
        (Theme_.color_for theme token, types) ∈ colors theme
        /\ TypeName (type token) ∈ types).
Proof.
  split; [apply color_for_items_default|apply color_for_items_found].
Qed.

Lemma color_for_spec_witness :
  Theme_.color_for Demo.theme (mkToken "operation" "+") = "#FFFFFF"
  /\ exists types,
       (Theme_.color_for Demo.theme (mkToken "keyword literal" "true"), types)
         ∈ colors Demo.theme
       /\ TypeName "keyword literal" ∈ types.
Proof.
  split.
  - apply (color_for_spec Demo.theme (mkToken "operation" "+")).
    intros key types Hin Hty. apply type_in_spec in Hty.
    simpl in Hin. set_unfold in Hin.
    repeat (destruct Hin as [[= -> ->]|Hin]; [vm_compute in Hty; discriminate Hty|]).
    exact Hin.
  - apply (color_for_spec Demo.theme (mkToken "keyword literal" "true")).
    exists "#D19A66", [TypeName "number"; TypeName "keyword literal"].
    split; [|set_solver]. simpl. set_solver.
Defined.

(** The first matching key wins: a type listed under two colours. *)
Example color_for_first_match :
  Theme_.color_for
    (mkTheme [("#111111", [Callable 0; TypeName "string"]); ("#222222", [TypeName "string"])] [])
    (mkToken "string" "s") = "#111111".
Proof. reflexivity. Qed.

(** ** No language *)


(** ** Line separators *)

Lemma split_length (sep : ascii) (s : string) :
  length (Py.split sep s) = S (occurrences sep s).
Proof.
  induction s as [|c s IH]; [reflexivity|].
  simpl. destruct (Ascii.eqb c sep).
  - simpl. rewrite IH. reflexivity.
  - destruct (Py.split sep s) as [|p ps]; [discriminate IH|exact IH].
Qed.

(** Joining the pieces with the separator gives the text back. *)
Lemma split_join (sep : ascii) (s : string) :
  String.concat (String sep EmptyString) (Py.split sep s) = s.
Proof.
  induction s as [|c s IH]; [reflexivity|].
  pose proof (split_length sep s) as Hlen.
  simpl. destruct (Ascii.eqb_spec c sep) as [->|Hne].
  - destruct (Py.split sep s) as [|p ps] eqn:E; [discriminate Hlen|].
    change (String.concat (String sep EmptyString) (EmptyString :: p :: ps))
      with (String sep (String.concat (String sep EmptyString) (p :: ps))).
    rewrite IH. reflexivity.
  - destruct (Py.split sep s) as [|p ps] eqn:E; [discriminate Hlen|].
    rewrite <- IH. destruct ps; reflexivity.
Qed.

(** C6: the text is split into one more line than it has newline characters,
    and [finished] grows, line by line, by one element per token of the line
    followed by one separator, the one-character string of code 13 (a
    carriage return): as many separators are appended by the loop as there
    are lines, each right after its line's tokens.  The only exception the
    loop can raise is [ZeroDivisionError], for a theme with no group
    colours. *)
Theorem one_separator_per_line (theme : Theme) (lang : TokenizableLanguage)
    (text : string) :
  let lines := Py.split "010" text in
  length lines = S (occurrences "010" text)
  /\ (forall g f,
        match CodeBlock.render_lines theme lang lines (g, f) with
        | Ok (_, f') =>
            exists chunks,
              length chunks = length lines
              /\ Forall2 (fun line chunk => length chunk = length (tokenize lang line))
                         lines chunks
              /\ f' = (f ++ concat (map (fun chunk => chunk ++ [String "013" EmptyString])
                                       chunks))%list
        | Raise e => e = ZeroDivisionError /\ group_matchers theme = []
        end)
  /\ (forall nm col,
        match CodeBlock.finished_text text
                (Some (mkProgrammingLanguage nm col (Some lang))) theme with
        | Ok s =>
            exists chunks,
              length chunks = length lines
              /\ Forall2 (fun line chunk => length chunk = length (tokenize lang line))
                         lines chunks
              /\ s = String.concat EmptyString
                       (concat (map (fun chunk => (chunk ++ [String "013" EmptyString])%list)
                                    chunks))
        | Raise e => e = ZeroDivisionError /\ group_matchers theme = []
        end).
Proof.
  intros lines. split; [apply split_length|]. split.
  - intros g f. pose proof (render_lines_spec theme lang lines g f) as H.
    destruct (CodeBlock.render_lines theme lang lines (g, f)) as [[g' f']|e]; [|exact H].
    destruct H as (_ & chunks & Hall & ->). exists chunks.
    split; [symmetry; eapply Forall2_length, Hall|]. split; [exact Hall|reflexivity].
  - intros nm col. unfold CodeBlock.finished_text. simpl language. cbv beta iota.
    change (Py.split CodeBlock.LF text) with lines.
    pose proof (render_lines_spec theme lang lines 0 []) as H.
    destruct (CodeBlock.render_lines theme lang lines (0, [])) as [[g' f']|e];
      [|exact H].
    destruct H as (_ & chunks & Hall & ->). simpl. exists chunks.
    split; [symmetry; eapply Forall2_length, Hall|]. split; [exact Hall|reflexivity].
Qed.

(** Three lines, the last one empty: three separators. *)
Example separators_three_lines :
  CodeBlock.finished_text
    (String "a" (String "010" (String " " (String "b" (String "010" EmptyString)))))
    (Some (mkProgrammingLanguage "C" None (Some Demo.lang))) (mkTheme [] [])
  = Ok ("<span foreground=" +:+ String "034" ("#FFFFFF" +:+ String "034" ">a</span>")
        +:+ String "013"
              (" " +:+ "<span foreground=" +:+ String "034"
                 ("#FFFFFF" +:+ String "034" ">b</span>")
               +:+ String "013" (String "013" EmptyString))).
Proof. vm_compute. reflexivity. Qed.

(** ** Matching brackets *)

Section Stream.

Import CodeBlock.

Variable theme : Theme.
Variable lang : TokenizableLanguage.

Lemma render_items_tokens toks st :
  for_each (render_item theme) (map Tok toks) st = render_tokens theme toks st.
Proof.
  revert st. induction toks as [|t toks IH]; intros st; [reflexivity|].
  unfold render_tokens in *. simpl map. rewrite !for_each_cons. simpl render_item.
  destruct (render_token theme st t); [apply IH|reflexivity].
Qed.

(** The nested loops are one pass over the stream of items. *)
Lemma render_lines_items lines st :
  render_lines theme lang lines st = for_each (render_item theme) (items lang lines) st.
Proof.
  revert st. induction lines as [|line lines IH]; intros st; [reflexivity|].
  unfold render_lines, items in *. simpl map. simpl concat.
  rewrite for_each_cons, for_each_app. unfold line_items at 1.
  rewrite for_each_app, render_items_tokens. unfold render_line.
  destruct (render_tokens theme (tokenize lang line) st) as [[g f]|e]; [|reflexivity].
  simpl. apply IH.
Qed.

Lemma depth_change_app xs ys :
  depth_change (xs ++ ys) = depth_change xs + depth_change ys.
Proof. induction xs as [|x xs IH]; simpl; lia. Qed.

Lemma balanced_depth its : balanced its -> depth_change its = 0.
Proof.
  induction 1 as [|its _ IH|t its Hl Hr _ IH|l mid r its Hl Hr _ IHmid _ IHits].
  - reflexivity.
  - simpl. lia.
  - simpl. unfold delta. rewrite Hl, Hr. lia.
  - simpl. rewrite depth_change_app. simpl. unfold delta.
    rewrite Hl, (right_not_left r Hr), Hr. lia.
Qed.

Lemma render_items_total its : forall g f,
  group_matchers theme <> [] ->
  exists chunk,
    for_each (render_item theme) its (g, f)
    = Ok (g + depth_change its, (f ++ chunk)%list)
    /\ length chunk = length its.
Proof.
  induction its as [|it its IH]; intros g f Hne.
  - exists []. simpl. rewrite app_nil_r, Z.add_0_r. split; reflexivity.
  - rewrite for_each_cons. destruct it as [t|].
    + change (render_item theme (g, f) (Tok t)) with (render_token theme (g, f) t).
      destruct (render_token_total theme t g f Hne) as [piece ->].
      destruct (IH (g + delta t) (f ++ [piece])%list Hne) as (chunk & Hrun & Hlen).
      exists (piece :: chunk). rewrite Hrun. split.
      * simpl. rewrite <- app_assoc, Z.add_assoc. reflexivity.
      * simpl. rewrite Hlen. reflexivity.
    + change (render_item theme (g, f) EOL) with (@Ok state (g, (f ++ [CR])%list)).
      destruct (IH g (f ++ [CR])%list Hne) as (chunk & Hrun & Hlen).
      exists (CR :: chunk). rewrite Hrun. split.
      * rewrite <- app_assoc. reflexivity.
      * simpl. rewrite Hlen. reflexivity.
Qed.

End Stream.

(** C9: in the stream of tokens rendered by the loop (over any number of
    lines), take an opener [l] and a later closer [r] with a well-nested
    stretch [mid] between them.  With [d] the counter right before [l], the
    string appended for [l] and the string appended for [r] are spans with the
    same foreground colour, [group_matchers[d % N]]: the counter is [d + 1]
    before [r] and is decremented before [r]'s colour is looked up.  Each item
    of the stream appends one element, so the two spans sit at the positions
    of [l] and [r].  The spans are written out character by character ([034]
    is the double quote). *)
Theorem matching_brackets_same_color (theme : Theme) (lang : TokenizableLanguage)
    (lines : list string) (pre mid post : list item) (l r : Token)
    (g : Z) (f : list string) :
  group_matchers theme <> [] ->
  items lang lines = (pre ++ Tok l :: mid ++ Tok r :: post)%list ->
  is_left l = true -> is_right r = true -> balanced mid ->
  exists c fpre fmid fpost g',
    group_matchers theme
      !! Z.to_nat ((g + depth_change pre) mod Py.len (group_matchers theme)) = Some c
    /\ CodeBlock.render_lines theme lang lines (g, f)
       = Ok (g', (f ++ fpre
                    ++ ("<span foreground=" +:+ String "034" (c +:+ String "034"
                          (">" +:+ value l +:+ "</span>")))
                    :: fmid
                    ++ ("<span foreground=" +:+ String "034" (c +:+ String "034"
                          (">" +:+ value r +:+ "</span>")))
                    :: fpost)%list)
    /\ length fpre = length pre
    /\ length fmid = length mid.
Proof.
  intros Hne Hitems Hl Hr Hbal.
  change (exists c fpre fmid fpost g',
    group_matchers theme
      !! Z.to_nat ((g + depth_change pre) mod Py.len (group_matchers theme)) = Some c
    /\ CodeBlock.render_lines theme lang lines (g, f)
       = Ok (g', (f ++ fpre ++ CodeBlock.span c (value l)
                    :: fmid ++ CodeBlock.span c (value r) :: fpost)%list)
    /\ length fpre = length pre
    /\ length fmid = length mid).
  set (d := g + depth_change pre).
  destruct (group_color_nonempty theme d Hne) as (c & Hc & Hlook).
  destruct (render_items_total theme pre g f Hne) as (fpre & Hpre & Hlpre).
  destruct (render_items_total theme mid (d + 1)
              (f ++ fpre ++ [CodeBlock.span c (value l)])%list Hne)
    as (fmid & Hmid & Hlmid).
  rewrite (balanced_depth mid Hbal), Z.add_0_r in Hmid.
  destruct (render_items_total theme post d
              (f ++ fpre ++ CodeBlock.span c (value l)
                 :: fmid ++ [CodeBlock.span c (value r)])%list Hne)
    as (fpost & Hpost & _).
  exists c, fpre, fmid, fpost, (d + depth_change post).
  split; [exact Hlook|]. split; [|split; assumption].
  rewrite render_lines_items, Hitems, for_each_app, Hpre. fold d.
  rewrite for_each_cons.
  change (render_item theme (d, (f ++ fpre)%list) (Tok l))
    with (CodeBlock.render_token theme (d, (f ++ fpre)%list) l).
  rewrite (render_token_left theme l d _ c Hl Hc), <- app_assoc.
  rewrite for_each_app, Hmid, for_each_cons.
  match goal with
  | |- context [render_item theme ?st (Tok r)] =>
      change (render_item theme st (Tok r)) with (CodeBlock.render_token theme st r)
  end.
  assert (Hc' : CodeBlock.group_color theme (d + 1 - 1) = Ok c)
    by (replace (d + 1 - 1) with d by lia; exact Hc).
  rewrite (render_token_right theme r (d + 1) _ c Hr Hc').
  replace (d + 1 - 1) with d by lia.
  match goal with
  | |- for_each _ post (d, ?x) = _ =>
      replace x with (f ++ fpre ++ CodeBlock.span c (value l)
                        :: fmid ++ [CodeBlock.span c (value r)])%list
        by (repeat (rewrite <- app_assoc; simpl app); reflexivity)
  end.
  rewrite Hpost. f_equal. f_equal.
  repeat (rewrite <- app_assoc; simpl app). reflexivity.
Qed.

Lemma matching_brackets_same_color_witness :
  exists fpre fmid fpost g',
    CodeBlock.render_lines Demo.theme Demo.lang ["f(a["; "b]c)"] (0, [])
    = Ok (g', (fpre
                 ++ ("<span foreground=" +:+ String "034" ("#D19A66" +:+ String "034"
                       ">(</span>"))
                 :: fmid
                 ++ ("<span foreground=" +:+ String "034" ("#D19A66" +:+ String "034"
                       ">)</span>"))
                 :: fpost)%list)
    /\ length fpre = 1%nat /\ length fmid = 6%nat.
Proof.
  assert (Hne : group_matchers Demo.theme <> []) by discriminate.
  destruct (matching_brackets_same_color Demo.theme Demo.lang ["f(a["; "b]c)"]
              [Tok (mkToken "identifier" "f")]
              [Tok (mkToken "identifier" "a"); Tok (mkToken "left bracket" "[");
               EOL; Tok (mkToken "identifier" "b");
               Tok (mkToken "right bracket" "]"); Tok (mkToken "identifier" "c")]
              [EOL]
              (mkToken "left parentheses" "(") (mkToken "right parentheses" ")")
              0 [] Hne)
    as (c & fpre & fmid & fpost & g' & Hlook & Hrun & Hlpre & Hlmid).
  - reflexivity.
  - reflexivity.
  - reflexivity.
  - apply balanced_plain; [reflexivity..|].
    apply (balanced_pair (mkToken "left bracket" "[")
             [EOL; Tok (mkToken "identifier" "b")]
             (mkToken "right bracket" "]") [Tok (mkToken "identifier" "c")]);
      [reflexivity..| |].
    + apply balanced_eol, balanced_plain; [reflexivity..|apply balanced_nil].
    + apply balanced_plain; [reflexivity..|apply balanced_nil].
  - vm_compute in Hlook. injection Hlook as <-.
    exists fpre, fmid, fpost, g'. split; [exact Hrun|]. split; assumption.
Defined.


(** ** Escaping *)

Lemma append_cons (x : ascii) (a b : string) : String x a +:+ b = String x (a +:+ b).
Proof. reflexivity. Qed.

Lemma append_nil (b : string) : EmptyString +:+ b = b.
Proof. reflexivity. Qed.

Lemma append_assoc (a b c : string) : (a +:+ b) +:+ c = a +:+ (b +:+ c).
Proof.
  induction a as [|x a IH]; [reflexivity|].
  rewrite !append_cons. f_equal. exact IH.
Qed.

Lemma regex_sub_app pat repl s1 s2 :
  Py.regex_sub pat repl (s1 +:+ s2) = Py.regex_sub pat repl s1 +:+ Py.regex_sub pat repl s2.
Proof.
  induction s1 as [|c s1 IH]; [reflexivity|].
  rewrite append_cons. simpl. rewrite IH. destruct (Ascii.eqb c pat).
  - symmetry. apply append_assoc.
  - rewrite append_cons. reflexivity.
Qed.

Lemma regex_sub_other pat repl c :
  c <> pat -> Py.regex_sub pat repl (String c EmptyString) = String c EmptyString.
Proof. intros Hne. simpl. destruct (Ascii.eqb_spec c pat); [contradiction|reflexivity]. Qed.

(** The last branch escapes correctly: the three substitutions, in the
    code's order, amount to escaping each character once. *)
Lemma safe_value_escape (v : string) : CodeBlock.safe_value v = escape v.
Proof.
  unfold CodeBlock.safe_value. induction v as [|c v IH]; [reflexivity|].
  change (String c v) with (String c EmptyString +:+ v).
  rewrite !regex_sub_app, IH.
  change (escape (String c EmptyString +:+ v)) with (escape_char c +:+ escape v).
  f_equal. unfold escape_char.
  destruct (Ascii.eqb_spec c "&") as [->|Hamp]; [reflexivity|].
  rewrite (regex_sub_other "&" _ c Hamp).
  destruct (Ascii.eqb_spec c "<") as [->|Hlt]; [reflexivity|].
  rewrite (regex_sub_other "<" _ c Hlt).
  destruct (Ascii.eqb_spec c ">") as [->|Hgt]; [reflexivity|].
  apply regex_sub_other, Hgt.
Qed.

Lemma occurrences_app c s1 s2 :
  occurrences c (s1 +:+ s2) = (occurrences c s1 + occurrences c s2)%nat.
Proof.
  induction s1 as [|a s1 IH]; [reflexivity|].
  rewrite append_cons. simpl. rewrite IH. destruct (Ascii.eqb a c); reflexivity.
Qed.

Lemma escape_no_angle (v : string) :
  occurrences "<" (escape v) = O /\ occurrences ">" (escape v) = O.
Proof.
  induction v as [|c v [IHl IHg]]; [split; reflexivity|].
  simpl escape. rewrite !occurrences_app, IHl, IHg. unfold escape_char.
  destruct (Ascii.eqb_spec c "&") as [->|_]; [split; reflexivity|].
  destruct (Ascii.eqb_spec c "<") as [->|Hlt]; [split; reflexivity|].
  destruct (Ascii.eqb_spec c ">") as [->|Hgt]; [split; reflexivity|].
  simpl. destruct (Ascii.eqb_spec c "<"); [contradiction|].
  destruct (Ascii.eqb_spec c ">"); [contradiction|]. split; reflexivity.
Qed.

(** C3, at a token the escaping misses: a token whose type starts with
    [left] (or [right]) and whose value is ["<"] (or [">"], ["&"]) is put
    into its span as it is, whereas the same value in a token of any other
    type is escaped; a whitespace token's value is appended as it is too. *)
Theorem bracket_value_not_escaped :
  CodeBlock.render_token Demo.theme (0, []) (mkToken "left angle" "<")
  = Ok (1, [CodeBlock.span "#D19A66" "<"])
  /\ CodeBlock.render_token Demo.theme (1, []) (mkToken "right angle" ">")
     = Ok (0, [CodeBlock.span "#D19A66" ">"])
  /\ CodeBlock.render_token Demo.theme (0, []) (mkToken "symbol" "<")
     = Ok (0, [CodeBlock.span "#56B6C2" "&lt;"])
  /\ CodeBlock.render_token Demo.theme (0, []) (mkToken "whitespace" "&")
     = Ok (0, ["&"]).
Proof. repeat split; vm_compute; reflexivity. Qed.

(** ** [ProgrammingLanguage.__init__] *)

Lemma init_no_tokenizer env nm tokenize_name :
  tokenize_all env !! ProgrammingLanguage_.attr_name nm tokenize_name = None ->
  ProgrammingLanguage_.init env nm tokenize_name
  = Raise (AttributeError "tokenize_all" (ProgrammingLanguage_.attr_name nm tokenize_name)).
Proof.
  intros H. unfold ProgrammingLanguage_.init, ProgrammingLanguage_.getattr.
  rewrite H. reflexivity.
Qed.

Lemma init_no_color_entry env nm tokenize_name :
  is_Some (tokenize_all env !! ProgrammingLanguage_.attr_name nm tokenize_name) ->
  language_colors env !! nm = None ->
  ProgrammingLanguage_.init env nm tokenize_name = Raise (KeyError nm).
Proof.
  intros [v Hv] H.
  unfold ProgrammingLanguage_.init, ProgrammingLanguage_.getattr,
    ProgrammingLanguage_.dict_getitem.
  rewrite Hv. simpl. rewrite H. reflexivity.
Qed.

(** The warnings are printed only once both lookups have succeeded: for an
    attribute bound to [None] and for an entry whose colour is [null]. *)
Lemma init_ok env nm tokenize_name lang entry col :
  tokenize_all env !! ProgrammingLanguage_.attr_name nm tokenize_name = Some lang ->
  language_colors env !! nm = Some entry ->
  entry !! "color" = Some col ->
  exists out,
    ProgrammingLanguage_.init env nm tokenize_name
    = Ok (mkProgrammingLanguage nm col lang, out).
Proof.
  intros Hl He Hc.
  unfold ProgrammingLanguage_.init, ProgrammingLanguage_.getattr,
    ProgrammingLanguage_.dict_getitem.
  rewrite Hl. simpl. rewrite He. simpl. rewrite Hc. simpl. eauto.
Qed.

(** C4, at names the lookups do not know: a name with no attribute in
    [tokenize_all] raises [AttributeError], and a name with a tokenizer but no
    entry in [language_colors] raises [KeyError]; no warning is printed and no
    object is built.  The warning is reached only when a lookup succeeds and
    gives [None], as for the [null] colour of the third case. *)
Theorem init_unknown_language_raises :
  ProgrammingLanguage_.init Demo.env "Klingon" None
  = Raise (AttributeError "tokenize_all" "Klingon")
  /\ ProgrammingLanguage_.init Demo.env "C++" (Some "Cpp") = Raise (KeyError "C++")
  /\ ProgrammingLanguage_.init Demo.env "Lua" None
     = Ok (mkProgrammingLanguage "Lua" None (Some Demo.lang),
           ["Warning: no color found for Lua"]).
Proof. repeat split; vm_compute; reflexivity. Qed.

(** ** Loading the module *)

Lemma declare_colors env m d m' :
  declare env m d = Ok m' -> loaded_colors m' = loaded_colors m.
Proof.
  destruct d as [[var nm] tokenize_name]. unfold declare.
  destruct (ProgrammingLanguage_.init env nm tokenize_name) as [[pl out]|e];
    simpl; [|discriminate].
  intros [= <-]. reflexivity.
Qed.

Lemma declarations_colors env ds : forall m m',
  for_each (declare env) ds m = Ok m' -> loaded_colors m' = loaded_colors m.
Proof.
  induction ds as [|d ds IH]; intros m m'.
  - intros [= <-]. reflexivity.
  - rewrite for_each_cons. destruct (declare env m d) as [m1|e] eqn:E; [|discriminate].
    intros H. rewrite (IH _ _ H). eapply declare_colors, E.
Qed.

(** C8, as the code has it: importing the module fetches the colour table.
    When the fetch of [colors_url] raises, the import raises the same
    exception; when the import succeeds, the fetch has returned a body and
    [language_colors] is that body decoded. *)
Theorem module_load_fetches_colors (w : World) :
  (forall e, urlopen_read w colors_url = Raise e -> module_load w = Raise e)
  /\ (forall m,
        module_load w = Ok m ->
        exists body,
          urlopen_read w colors_url = Ok body
          /\ json_loads w body = Ok (loaded_colors m)).
Proof.
  unfold module_load. split.
  - intros e ->. reflexivity.
  - intros m H.
    apply bind_inv in H as (body & Hbody & H).
    apply bind_inv in H as (table & Htable & H).
    apply declarations_colors in H. simpl in H.
    exists body. rewrite H. split; assumption.
Qed.

Lemma module_load_fetches_colors_witness :
  module_load Demo.offline = Raise (URLError "no route to host")
  /\ (exists m body,
        module_load Demo.online = Ok m
        /\ urlopen_read Demo.online colors_url = Ok body
        /\ loaded_colors m = Demo.full_table).
Proof.
  split.
  - apply (module_load_fetches_colors Demo.offline). reflexivity.
  - destruct (module_load Demo.online) as [m|e] eqn:E; [|vm_compute in E; discriminate E].
    destruct (proj2 (module_load_fetches_colors Demo.online) m E) as (body & Hb & Hj).
    exists m, body. split; [reflexivity|]. split; [exact Hb|].
    simpl in Hj. injection Hj as <-. reflexivity.
Defined.

(** C8, as stated, fails: a world in which the module loads stops loading
    it once the network is cut, everything else being the same. *)
Lemma module_load_needs_network :
  ~ (forall w m, module_load w = Ok m -> exists m', module_load (cut_network w) = Ok m').
Proof.
  intros H.
  destruct (module_load Demo.online) as [m|e] eqn:E; [|vm_compute in E; discriminate E].
  destruct (H Demo.online m E) as [m' Hm']. discriminate Hm'.
Qed.

(** * Further properties of the module *)

(** ** [Theme.color_for]: order of the entries *)

(** X1: [color_for] returns the first key, in the order of the dict, whose
    list contains the token's type: entries after it play no part, even when
    their lists contain the type too. *)
Theorem color_for_first_listed (theme : Theme) (token : Token)
    (before after : list (string * list matcher)) (key : string) (types : list matcher) :
  colors theme = (before ++ (key, types) :: after)%list ->
  (forall k ts, (k, ts) ∈ before -> TypeName (type token) ∉ ts) ->
  TypeName (type token) ∈ types ->
  Theme_.color_for theme token = key.
Proof.
  unfold Theme_.color_for. intros -> Hbefore Hin.
  induction before as [|[k ts] before IH]; simpl.
  - apply type_in_spec in Hin. rewrite Hin. reflexivity.
  - destruct (type_in (type token) ts) eqn:E.
    + apply type_in_spec in E. exfalso. apply (Hbefore k ts); [left|exact E].
    + apply IH. intros k' ts' Hk. apply (Hbefore k' ts'). right. exact Hk.
Qed.

Lemma color_for_first_listed_witness :
  Theme_.color_for
    (mkTheme [("#111111", [TypeName "keyword"]);
              ("#222222", [Callable 0; TypeName "string"]);
              ("#333333", [TypeName "string"])] [])
    (mkToken "string" "'s'") = "#222222".
Proof.
  apply (color_for_first_listed _ _ [("#111111", [TypeName "keyword"])]
           [("#333333", [TypeName "string"])] "#222222"
           [Callable 0; TypeName "string"]).
  - reflexivity.
  - intros k ts Hk Hty. apply list_elem_of_singleton in Hk. injection Hk as -> ->.
    apply type_in_spec in Hty. discriminate Hty.
  - apply type_in_spec. reflexivity.
Defined.

(** ** The escaping of the last branch *)

(** X2: the three substitutions of lines 146-148, applied one after the
    other, never escape twice: the result is the value with each ['&'], ['<']
    and ['>'] replaced once by its entity and every other character kept. *)
Theorem safe_value_one_pass (v : string) : CodeBlock.safe_value v = escape v.
Proof. apply safe_value_escape. Qed.

Lemma occurrences_amp_escape_char c :
  occurrences "&" (escape_char c) = if special c then 1%nat else 0%nat.
Proof.
  unfold escape_char, special.
  destruct (Ascii.eqb_spec c "&") as [->|Hamp]; [reflexivity|].
  destruct (Ascii.eqb_spec c "<") as [->|Hlt]; [reflexivity|].
  destruct (Ascii.eqb_spec c ">") as [->|Hgt]; [reflexivity|].
  simpl. destruct (Ascii.eqb_spec c "&"); [contradiction|reflexivity].
Qed.

Lemma escape_plain v :
  (forall c, occurrences c v <> O -> special c = false) -> escape v = v.
Proof.
  induction v as [|c v IH]; intros Hplain; [reflexivity|].
  simpl escape. rewrite IH.
  - assert (Hc : special c = false).
    { apply Hplain. simpl. rewrite Ascii.eqb_refl. discriminate. }
    unfold special in Hc. unfold escape_char.
    destruct (Ascii.eqb c "&"); [discriminate Hc|].
    destruct (Ascii.eqb c "<"); [discriminate Hc|].
    destruct (Ascii.eqb c ">"); [discriminate Hc|]. reflexivity.
  - intros c' Hc'. apply Hplain. simpl. destruct (Ascii.eqb c c'); [discriminate|exact Hc'].
Qed.

(** X3: an escaped value holds no ['<'] and no ['>'], and as many ['&'] as
    the value has characters among ['&'], ['<'], ['>'] (one per entity); a
    value without these characters is left as it is. *)
Theorem safe_value_markup_free (v : string) :
  occurrences "<" (CodeBlock.safe_value v) = O
  /\ occurrences ">" (CodeBlock.safe_value v) = O
  /\ occurrences "&" (CodeBlock.safe_value v)
     = (occurrences "&" v + occurrences "<" v + occurrences ">" v)%nat
  /\ ((forall c, occurrences c v <> O -> special c = false) ->
      CodeBlock.safe_value v = v).
Proof.
  rewrite safe_value_escape.
  destruct (escape_no_angle v) as [Hl Hg].
  split; [exact Hl|]. split; [exact Hg|]. split; [|apply escape_plain].
  clear Hl Hg. induction v as [|c v IH]; [reflexivity|].
  simpl escape. rewrite occurrences_app, occurrences_amp_escape_char, IH.
  unfold special. simpl occurrences.
  destruct (Ascii.eqb_spec c "&") as [->|Hamp]; [simpl; lia|].
  destruct (Ascii.eqb_spec c "<") as [->|Hlt]; [simpl; lia|].
  destruct (Ascii.eqb_spec c ">") as [->|Hgt]; [simpl; lia|].
  simpl. lia.
Qed.

Lemma safe_value_markup_free_witness :
  CodeBlock.safe_value "x = y" = "x = y"
  /\ occurrences "&" (CodeBlock.safe_value "a<b && c>d") = 4%nat.
Proof.
  split.
  - apply (safe_value_markup_free "x = y").
    intros c Hc. cbn [occurrences] in Hc.
    repeat match type of Hc with
           | context [Ascii.eqb ?a c] =>
               destruct (Ascii.eqb_spec a c) as [E|_]; [rewrite <- E; reflexivity|]
           end.
    exfalso. apply Hc. reflexivity.
  - destruct (safe_value_markup_free "a<b && c>d") as (_ & _ & H & _).
    rewrite H. reflexivity.
Defined.

Lemma escape_char_cases c :
  (c = "&"%char /\ escape_char c = "&amp;")
  \/ (c = "<"%char /\ escape_char c = "&lt;")
  \/ (c = ">"%char /\ escape_char c = "&gt;")
  \/ (c <> "&"%char /\ escape_char c = String c EmptyString).
Proof.
  unfold escape_char.
  destruct (Ascii.eqb_spec c "&") as [->|Hamp]; [auto|].
  destruct (Ascii.eqb_spec c "<") as [->|Hlt]; [auto|].
  destruct (Ascii.eqb_spec c ">") as [->|Hgt]; [auto 6|auto 6].
Qed.

Lemma escape_cons c v : escape (String c v) = escape_char c +:+ escape v.
Proof. reflexivity. Qed.

Lemma escape_inj v1 : forall v2, escape v1 = escape v2 -> v1 = v2.
Proof.
  induction v1 as [|c1 v1 IH]; intros [|c2 v2] H.
  - reflexivity.
  - exfalso. rewrite escape_cons in H.
    destruct (escape_char_cases c2) as [[_ E]|[[_ E]|[[_ E]|[_ E]]]];
      rewrite E, append_cons in H; discriminate H.
  - exfalso. rewrite escape_cons in H.
    destruct (escape_char_cases c1) as [[_ E]|[[_ E]|[[_ E]|[_ E]]]];
      rewrite E, append_cons in H; discriminate H.
  - rewrite !escape_cons in H.
    destruct (escape_char_cases c1) as [[-> E1]|[[-> E1]|[[-> E1]|[N1 E1]]]];
      destruct (escape_char_cases c2) as [[-> E2]|[[-> E2]|[[-> E2]|[N2 E2]]]];
      rewrite ?E1, ?E2 in H; rewrite !append_cons, !append_nil in H;
      try discriminate H; injection H; intros; subst;
      try congruence; f_equal; apply IH; assumption.
Qed.

(** X4: the escaping loses nothing: two values with the same escaped form
    are the same value. *)
Theorem safe_value_injective (v1 v2 : string) :
  CodeBlock.safe_value v1 = CodeBlock.safe_value v2 -> v1 = v2.
Proof. rewrite !safe_value_escape. apply escape_inj. Qed.

Lemma safe_value_injective_witness :
  CodeBlock.safe_value "a && b < c" = "a &amp;&amp; b &lt; c"
  /\ "a &" +:+ "& b < c" = "a && b < c".
Proof.
  split; [reflexivity|].
  apply (safe_value_injective ("a &" +:+ "& b < c") "a && b < c"). reflexivity.
Defined.

(** ** Exceptions of the rendering loop *)

Lemma has_bracket_app xs ys : has_bracket (xs ++ ys) = has_bracket xs || has_bracket ys.
Proof. unfold has_bracket. apply existsb_app. Qed.

Lemma render_tokens_no_bracket theme toks : forall g f,
  has_bracket toks = false ->
  exists chunk,
    CodeBlock.render_tokens theme toks (g, f) = Ok (g, (f ++ chunk)%list)
    /\ length chunk = length toks.
Proof.
  induction toks as [|tok toks IH]; intros g f Hno.
  - exists []. rewrite app_nil_r. split; reflexivity.
  - simpl in Hno. apply orb_false_elim in Hno as [Htok Hno].
    apply orb_false_elim in Htok as [Hl Hr].
    destruct (render_token_plain theme tok g f Hl Hr) as [piece Hpiece].
    destruct (IH g (f ++ [piece])%list Hno) as (chunk & Hrun & Hlen).
    exists (piece :: chunk). unfold CodeBlock.render_tokens in *.
    rewrite for_each_cons, Hpiece, Hrun, <- app_assoc. simpl. auto.
Qed.

Lemma render_token_no_colors theme tok st :
  group_matchers theme = [] -> is_left tok || is_right tok = true ->
  CodeBlock.render_token theme st tok = Raise ZeroDivisionError.
Proof.
  intros Hgm Hb. destruct st as [g f]. unfold CodeBlock.render_token.
  fold (is_left tok). fold (is_right tok).
  assert (Hraise : forall d, CodeBlock.group_color theme d = Raise ZeroDivisionError).
  { intros d. unfold CodeBlock.group_color, Py.mod_. rewrite Hgm. reflexivity. }
  destruct (is_left tok); [rewrite Hraise; reflexivity|].
  destruct (is_right tok); [rewrite Hraise; reflexivity|discriminate Hb].
Qed.

Lemma render_tokens_no_colors theme toks : forall st,
  group_matchers theme = [] -> has_bracket toks = true ->
  CodeBlock.render_tokens theme toks st = Raise ZeroDivisionError.
Proof.
  induction toks as [|tok toks IH]; intros [g f] Hgm Hb; [discriminate Hb|].
  unfold CodeBlock.render_tokens in *. rewrite for_each_cons.
  destruct (is_left tok || is_right tok) eqn:Htok.
  - rewrite (render_token_no_colors theme tok (g, f) Hgm Htok). reflexivity.
  - simpl in Hb. rewrite Htok in Hb. simpl in Hb.
    apply orb_false_elim in Htok as [Hl Hr].
    destruct (render_token_plain theme tok g f Hl Hr) as [piece ->].
    apply IH; assumption.
Qed.

(** X5: a text none of whose tokens is a bracket token renders under every
    theme, the counter staying where it was; under a theme with no group
    colours, a text with at least one bracket token raises
    [ZeroDivisionError]. *)
Theorem bracket_free_or_division_error (theme : Theme) (lang : TokenizableLanguage)
    (lines : list string) (g : Z) (f : list string) :
  (has_bracket (all_tokens lang lines) = false ->
   exists f', CodeBlock.render_lines theme lang lines (g, f) = Ok (g, f'))
  /\ (group_matchers theme = [] -> has_bracket (all_tokens lang lines) = true ->
      CodeBlock.render_lines theme lang lines (g, f) = Raise ZeroDivisionError).
Proof.
  revert g f. induction lines as [|line lines IH]; intros g f.
  - split; [intros _; exists f; reflexivity|intros _ H; discriminate H].
  - rewrite all_tokens_cons, has_bracket_app.
    unfold CodeBlock.render_lines in *. rewrite for_each_cons.
    unfold CodeBlock.render_line at 1 3. split.
    + intros H. apply orb_false_elim in H as [Hline Hrest].
      destruct (render_tokens_no_bracket theme (tokenize lang line) g f Hline)
        as (chunk & -> & _).
      simpl. apply (IH g), Hrest.
    + intros Hgm H.
      destruct (has_bracket (tokenize lang line)) eqn:Hline.
      * rewrite (render_tokens_no_colors theme _ (g, f) Hgm Hline). reflexivity.
      * destruct (render_tokens_no_bracket theme (tokenize lang line) g f Hline)
          as (chunk & -> & _).
        simpl. apply (IH g); assumption.
Qed.

Lemma bracket_free_or_division_error_witness :
  (exists f', CodeBlock.render_lines (mkTheme [] []) Demo.lang ["a b"; "c"] (0, [])
              = Ok (0, f'))
  /\ CodeBlock.render_lines (mkTheme [] []) Demo.lang ["a b"; "c)"] (0, [])
     = Raise ZeroDivisionError.
Proof.
  split.
  - apply (bracket_free_or_division_error (mkTheme [] []) Demo.lang ["a b"; "c"] 0 []).
    reflexivity.
  - apply (bracket_free_or_division_error (mkTheme [] []) Demo.lang ["a b"; "c)"] 0 []);
      reflexivity.
Defined.

(** ** Group colours: cycle and edge *)

(** X6: the group colours repeat with period [len(group_matchers)]: depths
    that differ by a multiple of the number of group colours get the same
    colour (or the same exception). *)
Theorem group_color_periodic (theme : Theme) (g k : Z) :
  CodeBlock.group_color theme (g + k * Py.len (group_matchers theme))
  = CodeBlock.group_color theme g.
Proof.
  unfold CodeBlock.group_color, Py.mod_.
  destruct (Z.eqb_spec (Py.len (group_matchers theme)) 0) as [E|Hne]; [reflexivity|].
  rewrite Z.mod_add by exact Hne. reflexivity.
Qed.

(** X7: a closer met at depth 0 (no opener before it) is appended as the
    string [<span foreground="c">value</span>] with [c] the last group
    colour, and the counter goes to -1.  The string is written out character
    by character ([034] is the double quote). *)
Theorem unmatched_closer_last_color (theme : Theme) (r : Token) (f : list string)
    (c : string) :
  is_right r = true ->
  last (group_matchers theme) = Some c ->
  CodeBlock.render_token theme (0, f) r
  = Ok (-1, (f ++ ["<span foreground=" +:+ String "034" (c +:+ String "034"
                     (">" +:+ value r +:+ "</span>"))])%list).
Proof.
  intros Hr Hlast.
  assert (Hne : group_matchers theme <> []) by (intros E; rewrite E in Hlast; discriminate).
  destruct (group_color_nonempty theme (0 - 1) Hne) as (c' & Hc' & Hlook).
  pose proof (len_pos theme Hne) as Hpos.
  assert (Hmod : (0 - 1) mod Py.len (group_matchers theme)
                 = Py.len (group_matchers theme) - 1).
  { symmetry. apply (Z.mod_unique_pos _ _ (-1)); lia. }
  rewrite Hmod in Hlook. rewrite last_lookup in Hlast.
  replace (Z.to_nat (Py.len (group_matchers theme) - 1))
    with (pred (length (group_matchers theme))) in Hlook
    by (unfold Py.len; lia).
  assert (c' = c) as -> by congruence.
  exact (render_token_right theme r 0 f c Hr Hc').
Qed.

Lemma unmatched_closer_last_color_witness :
  CodeBlock.render_token Demo.theme (0, []) (mkToken "right brace" "}")
  = Ok (-1, ["<span foreground=" +:+ String "034" ("#56B6C2" +:+ String "034"
               ">}</span>")]).
Proof.
  apply (unmatched_closer_last_color Demo.theme (mkToken "right brace" "}") [] "#56B6C2");
    reflexivity.
Defined.

(** ** Lines of the text *)

Lemma split_app (sep : ascii) (s1 s2 : string) :
  Py.split sep (s1 +:+ String sep s2) = (Py.split sep s1 ++ Py.split sep s2)%list.
Proof.
  induction s1 as [|c s1 IH].
  - rewrite append_nil. simpl. rewrite Ascii.eqb_refl. reflexivity.
  - rewrite append_cons. simpl. rewrite IH.
    pose proof (split_length sep s1) as Hlen.
    destruct (Ascii.eqb c sep); [reflexivity|].
    destruct (Py.split sep s1) as [|p ps]; [discriminate Hlen|reflexivity].
Qed.

Lemma split_no_sep (sep : ascii) (s : string) :
  Forall (fun line => occurrences sep line = O) (Py.split sep s).
Proof.
  induction s as [|c s IH]; [repeat constructor|].
  pose proof (split_length sep s) as Hlen.
  simpl. destruct (Ascii.eqb c sep) eqn:E.
  - constructor; [reflexivity|exact IH].
  - destruct (Py.split sep s) as [|p ps]; [discriminate Hlen|].
    inversion IH as [|? ? Hp Hps]; subst.
    constructor; [|exact Hps]. simpl. rewrite E. exact Hp.
Qed.

(** X8: the lines the loop iterates over partition the text: no line holds
    a newline, and the lines joined by newlines are the text, so every
    character other than the newlines reaches the tokenizer exactly once, in
    order. *)
Theorem lines_partition_text (text : string) :
  Forall (fun line => occurrences CodeBlock.LF line = O) (Py.split CodeBlock.LF text)
  /\ String.concat (String CodeBlock.LF EmptyString) (Py.split CodeBlock.LF text) = text.
Proof. split; [apply split_no_sep|apply split_join]. Qed.

(** X9: rendering is sequential over the lines of the text: for a text
    [t1 + "\n" + t2] the loop does what it does on [t1], and then what it does on
    [t2] from the state ([group_count] and [finished]) reached at the end of
    [t1]; an exception in the first part is the exception of the whole. *)
Theorem render_text_newline (theme : Theme) (lang : TokenizableLanguage)
    (t1 t2 : string) (st : CodeBlock.state) :
  CodeBlock.render_lines theme lang
    (Py.split CodeBlock.LF (t1 +:+ String CodeBlock.LF t2)) st
  = match CodeBlock.render_lines theme lang (Py.split CodeBlock.LF t1) st with
    | Ok st' => CodeBlock.render_lines theme lang (Py.split CodeBlock.LF t2) st'
    | Raise e => Raise e
    end.
Proof. unfold CodeBlock.render_lines. rewrite split_app. apply for_each_app. Qed.

(** ** Shape of the markup *)

Lemma one_line_at_least (text : string) :
  exists line rest, Py.split CodeBlock.LF text = line :: rest.
Proof.
  pose proof (split_length CodeBlock.LF text) as Hlen.
  destruct (Py.split CodeBlock.LF text) as [|line rest]; [discriminate Hlen|eauto].
Qed.

Lemma append_empty_r (s : string) : s +:+ EmptyString = s.
Proof. induction s as [|c s IH]; [reflexivity|]. rewrite append_cons, IH. reflexivity. Qed.

Lemma join_cons (x : string) (l : list string) : Py.join (x :: l) = x +:+ Py.join l.
Proof.
  unfold Py.join. destruct l as [|y l]; simpl.
  - symmetry. apply append_empty_r.
  - reflexivity.
Qed.

Lemma join_app (l1 l2 : list string) : Py.join (l1 ++ l2) = Py.join l1 +:+ Py.join l2.
Proof.
  induction l1 as [|x l1 IH]; [reflexivity|].
  rewrite <- app_comm_cons, !join_cons, IH, append_assoc. reflexivity.
Qed.

Lemma chunks_end_with_separator (chunks : list (list string)) :
  chunks <> [] ->
  exists pieces,
    concat (map (fun chunk => (chunk ++ [CodeBlock.CR])%list) chunks)
    = (pieces ++ [CodeBlock.CR])%list.
Proof.
  induction chunks as [|chunk chunks IH]; intros Hne; [contradiction|].
  destruct chunks as [|chunk' chunks].
  - exists chunk. simpl. rewrite app_nil_r. reflexivity.
  - destruct IH as [pieces Hp]; [discriminate|].
    exists (chunk ++ [CodeBlock.CR] ++ pieces)%list.
    change (concat (map (fun chunk => (chunk ++ [CodeBlock.CR])%list) (chunk :: chunk' :: chunks)))
      with ((chunk ++ [CodeBlock.CR])
              ++ concat (map (fun chunk => (chunk ++ [CodeBlock.CR])%list) (chunk' :: chunks)))%list.
    rewrite Hp, <- !app_assoc. reflexivity.
Qed.

(** X10: for a language that has a tokenizer and a theme with at least one
    group colour, the markup built from the tokens of the lines is never
    empty: for every text, the empty text included, it ends with the
    character of code 13 appended after the last line. *)
Theorem markup_ends_with_separator (theme : Theme) (lang : TokenizableLanguage)
    (text nm : string) (col : option string) :
  group_matchers theme <> [] ->
  exists s',
    CodeBlock.finished_text text (Some (mkProgrammingLanguage nm col (Some lang))) theme
    = Ok (s' +:+ String "013" EmptyString).
Proof.
  intros Hne.
  destruct (one_line_at_least text) as [line [rest Hsplit]].
  unfold CodeBlock.finished_text. simpl language. cbv beta iota.
  pose proof (render_lines_spec theme lang (Py.split CodeBlock.LF text) 0 []) as H.
  destruct (CodeBlock.render_lines theme lang (Py.split CodeBlock.LF text) (0, []))
    as [[g' f']|e]; [|destruct H as [_ H]; contradiction].
  destruct H as (_ & chunks & Hall & ->). simpl.
  destruct (chunks_end_with_separator chunks) as [pieces ->].
  - intros ->. rewrite Hsplit in Hall. inversion Hall.
  - exists (Py.join pieces). rewrite join_app, join_cons.
    unfold Py.join at 2. simpl. rewrite append_empty_r. reflexivity.
Qed.

Lemma markup_ends_with_separator_witness :
  group_matchers Demo.theme <> []
  /\ exists s',
       CodeBlock.finished_text EmptyString
         (Some (mkProgrammingLanguage "C" None (Some Demo.lang))) Demo.theme
       = Ok (s' +:+ String "013" EmptyString).
Proof.
  split; [discriminate|].
  apply (markup_ends_with_separator Demo.theme Demo.lang EmptyString "C" None).
  discriminate.
Defined.

(** ** [ProgrammingLanguage.__init__]: lookups, warnings, failures *)

Lemma init_inv env nm tokenize_name pl out :
  ProgrammingLanguage_.init env nm tokenize_name = Ok (pl, out) ->
  exists lang entry col,
    tokenize_all env !! ProgrammingLanguage_.attr_name nm tokenize_name = Some lang
    /\ language_colors env !! nm = Some entry
    /\ entry !! "color" = Some col
    /\ pl = mkProgrammingLanguage nm col lang
    /\ out = expected_warnings nm col lang.
Proof.
  unfold ProgrammingLanguage_.init. intros H.
  apply bind_inv in H as (lang & Hlang & H).
  apply bind_inv in H as (entry & Hentry & H).
  apply bind_inv in H as (col & Hcol & H).
  injection H as <- <-.
  unfold ProgrammingLanguage_.getattr in Hlang.
  unfold ProgrammingLanguage_.dict_getitem in Hentry, Hcol.
  destruct (tokenize_all env !! _) as [l|]; [|discriminate Hlang].
  destruct (language_colors env !! nm) as [en|]; [|discriminate Hentry].
  destruct (entry !! "color") as [c|] eqn:Ec; [|discriminate Hcol].
  injection Hlang as ->. injection Hentry as ->. injection Hcol as ->.
  exists lang, entry, col. rewrite Ec. repeat split; reflexivity.
Qed.

Lemma init_found env nm tokenize_name lang entry col :
  tokenize_all env !! ProgrammingLanguage_.attr_name nm tokenize_name = Some lang ->
  language_colors env !! nm = Some entry ->
  entry !! "color" = Some col ->
  ProgrammingLanguage_.init env nm tokenize_name
  = Ok (mkProgrammingLanguage nm col lang, expected_warnings nm col lang).
Proof.
  intros Hl He Hc.
  unfold ProgrammingLanguage_.init, ProgrammingLanguage_.getattr,
    ProgrammingLanguage_.dict_getitem.
  rewrite Hl. simpl. rewrite He. simpl. rewrite Hc. reflexivity.
Qed.

(** X11: the constructor returns exactly when its two lookups succeed: the
    attribute of [tokenize_all] exists and the colour table has an entry for
    the name with a ["color"] key.  The object then carries the name given,
    the colour and the tokenizer found (either may be [None]), and the lines
    printed are one warning for a [None] colour followed by one warning for a
    [None] tokenizer, and nothing else. *)
Theorem init_succeeds_iff (env : Env) (nm : string) (tokenize_name : option string)
    (pl : ProgrammingLanguage) (out : list string) :
  ProgrammingLanguage_.init env nm tokenize_name = Ok (pl, out)
  <-> exists lang entry col,
        tokenize_all env !! ProgrammingLanguage_.attr_name nm tokenize_name = Some lang
        /\ language_colors env !! nm = Some entry
        /\ entry !! "color" = Some col
        /\ pl = mkProgrammingLanguage nm col lang
        /\ out = expected_warnings nm col lang.
Proof.
  split; [apply init_inv|].
  intros (lang & entry & col & Hl & He & Hc & -> & ->). apply init_found with entry; assumption.
Qed.

Lemma init_succeeds_iff_witness :
  ProgrammingLanguage_.init Demo.env "Lua" None
  = Ok (mkProgrammingLanguage "Lua" None (Some Demo.lang),
        ["Warning: no color found for Lua"])
  /\ exists entry,
       language_colors Demo.env !! "C" = Some entry
       /\ entry !! "color" = Some (Some "#555555").
Proof.
  split.
  - apply (init_succeeds_iff Demo.env "Lua" None).
    exists (Some Demo.lang), (Demo.entry None), None.
    repeat split; vm_compute; reflexivity.
  - assert (H : ProgrammingLanguage_.init Demo.env "C" None
                = Ok (mkProgrammingLanguage "C" (Some "#555555") (Some Demo.lang), []))
      by (vm_compute; reflexivity).
    apply (init_succeeds_iff Demo.env "C" None) in H
      as (lang & entry & col & _ & He & Hc & Hpl & _).
    injection Hpl as <- _. exists entry. split; assumption.
Defined.

(** X12: when a lookup fails the constructor raises, and the tokenizer is
    looked up first: a missing attribute gives [AttributeError] whatever the
    colour table holds; with the attribute present, a name missing from the
    table gives [KeyError(name)] and an entry without a ["color"] key gives
    [KeyError("color")].  An empty [tokenize_name] counts as none given. *)
Theorem init_failures (env : Env) (nm : string) (tokenize_name : option string) :
  (tokenize_all env !! ProgrammingLanguage_.attr_name nm tokenize_name = None ->
   ProgrammingLanguage_.init env nm tokenize_name
   = Raise (AttributeError "tokenize_all"
              (ProgrammingLanguage_.attr_name nm tokenize_name)))
  /\ (is_Some (tokenize_all env !! ProgrammingLanguage_.attr_name nm tokenize_name) ->
      language_colors env !! nm = None ->
      ProgrammingLanguage_.init env nm tokenize_name = Raise (KeyError nm))
  /\ (forall entry,
        is_Some (tokenize_all env !! ProgrammingLanguage_.attr_name nm tokenize_name) ->
        language_colors env !! nm = Some entry ->
        entry !! "color" = None ->
        ProgrammingLanguage_.init env nm tokenize_name = Raise (KeyError "color"))
  /\ ProgrammingLanguage_.init env nm (Some EmptyString)
     = ProgrammingLanguage_.init env nm None.
Proof.
  split; [apply init_no_tokenizer|]. split; [apply init_no_color_entry|].
  split; [|reflexivity].
  intros entry [v Hv] He Hc.
  unfold ProgrammingLanguage_.init, ProgrammingLanguage_.getattr,
    ProgrammingLanguage_.dict_getitem.
  rewrite Hv. simpl. rewrite He. simpl. rewrite Hc. reflexivity.
Qed.

Lemma init_failures_witness :
  ProgrammingLanguage_.init (mkEnv ∅ Demo.table) "C" None
  = Raise (AttributeError "tokenize_all" "C")
  /\ ProgrammingLanguage_.init Demo.env "C++" (Some "Cpp") = Raise (KeyError "C++")
  /\ ProgrammingLanguage_.init
       (mkEnv {[ "Go" := Some Demo.lang ]} {[ "Go" := {[ "url" := Some "https://go.dev" ]} ]})
       "Go" None
     = Raise (KeyError "color").
Proof.
  split; [|split].
  - apply (init_failures (mkEnv ∅ Demo.table) "C" None). reflexivity.
  - apply (init_failures Demo.env "C++" (Some "Cpp")).
    + exists (Some Demo.lang). reflexivity.
    + reflexivity.
  - apply (init_failures _ "Go" None) with {[ "url" := Some "https://go.dev" ]}.
    + exists (Some Demo.lang). reflexivity.
    + reflexivity.
    + reflexivity.
Defined.

(** X13: a language built on the warning path cannot render: when the
    attribute of [tokenize_all] is bound to [None], the constructor prints
    "no tokenization found" and returns an object, and building the markup
    of any text with that object raises [AttributeError]; the code block does
    not fall back to plain text. *)
Theorem warned_language_cannot_render (env : Env) (nm : string)
    (tokenize_name : option string) (entry : gmap string (option string))
    (col : option string) :
  tokenize_all env !! ProgrammingLanguage_.attr_name nm tokenize_name = Some None ->
  language_colors env !! nm = Some entry ->
  entry !! "color" = Some col ->
  exists pl out,
    ProgrammingLanguage_.init env nm tokenize_name = Ok (pl, out)
    /\ ("Warning: no tokenization found for " +:+ nm) ∈ out
    /\ forall text theme font,
         CodeBlock.markup_source text (Some pl) theme font
         = Raise (AttributeError "NoneType" "tokenize").
Proof.
  intros Hl He Hc.
  exists (mkProgrammingLanguage nm col None), (expected_warnings nm col None).
  split; [apply init_found with entry; assumption|]. split.
  - unfold expected_warnings. apply elem_of_app. right. left.
  - reflexivity.
Qed.

Lemma warned_language_cannot_render_witness :
  exists pl,
    ProgrammingLanguage_.init
      (mkEnv {[ "Zig" := None ]} {[ "Zig" := Demo.entry (Some "#ec915c") ]}) "Zig" None
    = Ok (pl, ["Warning: no tokenization found for Zig"])
    /\ CodeBlock.markup_source "x" (Some pl) Demo.theme "consolas"
       = Raise (AttributeError "NoneType" "tokenize").
Proof.
  destruct (warned_language_cannot_render
              (mkEnv {[ "Zig" := None ]} {[ "Zig" := Demo.entry (Some "#ec915c") ]})
              "Zig" None (Demo.entry (Some "#ec915c")) (Some "#ec915c"))
    as (pl & out & Hinit & _ & Hrender); [reflexivity..|].
  exists pl. split; [|apply Hrender].
  rewrite Hinit. vm_compute in Hinit. injection Hinit as _ <-. reflexivity.
Defined.

(** ** Importing the module: the fourteen declarations *)

Lemma declare_inv env m d m' :
  declare env m d = Ok m' ->
  exists pl,
    bound_by env d (fst (fst d), pl)
    /\ loaded_colors m' = loaded_colors m
    /\ loaded_languages m' = (loaded_languages m ++ [(fst (fst d), pl)])%list
    /\ loaded_stdout m'
       = (loaded_stdout m ++ expected_warnings (name pl) (color pl) (language pl))%list.
Proof.
  destruct d as [[var nm] tokenize_name]. unfold declare. intros H.
  apply bind_inv in H as ([pl out] & Hinit & H). injection H as <-.
  apply init_inv in Hinit as (lang & entry & col & Hl & He & Hc & -> & ->).
  exists (mkProgrammingLanguage nm col lang). simpl.
  repeat split; try reflexivity; [exact Hl|]. exists entry. split; assumption.
Qed.

Lemma declare_resolves env m d :
  (exists m', declare env m d = Ok m') <-> resolves env d.
Proof.
  destruct d as [[var nm] tokenize_name]. split.
  - intros [m' H]. apply declare_inv in H as (pl & (_ & _ & Hl & entry & He & Hc) & _).
    simpl in *. split; [eauto|]. exists entry. split; [exact He|eauto].
  - intros ([lang Hl] & entry & He & [col Hc]). unfold declare.
    rewrite (init_found env nm tokenize_name lang entry col Hl He Hc). simpl. eauto.
Qed.

Lemma declarations_resolve env ds : forall m,
  (exists m', for_each (declare env) ds m = Ok m') <-> Forall (resolves env) ds.
Proof.
  induction ds as [|d ds IH]; intros m.
  - split; [constructor|intros _; exists m; reflexivity].
  - rewrite for_each_cons. split.
    + intros [m' H]. destruct (declare env m d) as [m1|e] eqn:E; [|discriminate H].
      constructor; [apply (declare_resolves env m d); eauto|].
      apply (IH m1). eauto.
    + intros H. inversion H as [|? ? Hd Hds]; subst.
      apply (declare_resolves env m d) in Hd as [m1 ->]. apply IH, Hds.
Qed.

(** X14: the import succeeds exactly when the fetch returns a body, the body
    decodes, and every one of the fourteen declarations finds both its
    attribute in [tokenize_all] and its entry (with a ["color"] key) in the
    decoded table.  A single name missing from the table makes the whole
    import fail. *)
Theorem module_load_succeeds_iff (w : World) :
  (exists m, module_load w = Ok m)
  <-> exists body table,
        urlopen_read w colors_url = Ok body
        /\ json_loads w body = Ok table
        /\ Forall (resolves (mkEnv (tokenize_all_module w) table)) declarations.
Proof.
  unfold module_load. split.
  - intros [m H].
    apply bind_inv in H as (body & Hbody & H).
    apply bind_inv in H as (table & Htable & H).
    exists body, table. split; [exact Hbody|]. split; [exact Htable|].
    eapply declarations_resolve. eauto.
  - intros (body & table & -> & Htable & Hall).
    change (exists m, (table ← json_loads w body;
                       for_each (declare (mkEnv (tokenize_all_module w) table))
                         declarations (mkLoaded table [] [])) = Ok m).
    rewrite Htable. eapply declarations_resolve, Hall.
Qed.

Lemma module_load_succeeds_iff_witness :
  (exists body table,
     urlopen_read Demo.online colors_url = Ok body
     /\ json_loads Demo.online body = Ok table
     /\ Forall (resolves (mkEnv (tokenize_all_module Demo.online) table)) declarations)
  /\ ~ (exists m,
          module_load (mkWorld (urlopen_read Demo.online)
                         (fun _ => Ok (delete "Fortran" Demo.full_table))
                         Demo.full_module) = Ok m).
Proof.
  split.
  - apply (module_load_succeeds_iff Demo.online).
    destruct (module_load Demo.online) as [m|e] eqn:E; [eauto|].
    vm_compute in E. discriminate E.
  - intros H. apply module_load_succeeds_iff in H as (body & table & _ & Ht & Hall).
    simpl in Ht. injection Ht as <-.
    rewrite Forall_forall in Hall.
    destruct (Hall ("Fortran", "Fortran", None)) as (_ & entry & He & _).
    + unfold declarations. set_solver.
    + simpl in He. rewrite lookup_delete_eq in He. discriminate He.
Defined.

Lemma declarations_bound env ds : forall m m',
  for_each (declare env) ds m = Ok m' ->
  exists bs,
    loaded_languages m' = (loaded_languages m ++ bs)%list
    /\ Forall2 (bound_by env) ds bs
    /\ loaded_stdout m'
       = (loaded_stdout m
            ++ concat (map (fun b => expected_warnings (name (snd b)) (color (snd b))
                                       (language (snd b))) bs))%list.
Proof.
  induction ds as [|d ds IH]; intros m m' H.
  - injection H as <-. exists []. simpl. rewrite !app_nil_r. repeat split. constructor.
  - rewrite for_each_cons in H.
    destruct (declare env m d) as [m1|e] eqn:E; [|discriminate H].
    apply declare_inv in E as (pl & Hb & _ & Hlangs & Hout).
    apply IH in H as (bs & Hlangs' & Hall & Hout').
    exists ((fst (fst d), pl) :: bs). split; [|split].
    + rewrite Hlangs', Hlangs, <- app_assoc. reflexivity.
    + constructor; assumption.
    + rewrite Hout', Hout, <- app_assoc. reflexivity.
Qed.

(** X15: after a successful import, the module binds the fourteen variables
    in the order of the declarations, each to an object with the declared
    name, the tokenizer found under the declared attribute ([Cpp] for C++,
    [CSharp] for C#, the name itself otherwise) and the colour found under
    the name in the fetched table; what the import has printed is exactly
    the warnings of these objects, in the same order. *)
Theorem module_load_bindings (w : World) (m : Loaded) :
  module_load w = Ok m ->
  Forall2 (bound_by (mkEnv (tokenize_all_module w) (loaded_colors m)))
          declarations (loaded_languages m)
  /\ loaded_stdout m
     = concat (map (fun b => expected_warnings (name (snd b)) (color (snd b))
                               (language (snd b))) (loaded_languages m)).
Proof.
  unfold module_load. intros H.
  apply bind_inv in H as (body & Hbody & H).
  apply bind_inv in H as (table & Htable & H).
  pose proof (declarations_colors _ _ _ _ H) as Hcolors. simpl in Hcolors.
  apply declarations_bound in H as (bs & Hlangs & Hall & Hout).
  simpl in Hlangs, Hout. rewrite Hcolors, Hlangs, Hout. split; [exact Hall|reflexivity].
Qed.

Lemma module_load_bindings_witness :
  exists m pl,
    module_load Demo.online = Ok m
    /\ loaded_languages m !! 1%nat = Some ("Cpp", pl)
    /\ name pl = "C++"
    /\ tokenize_all_module Demo.online !! "Cpp" = Some (language pl)
    /\ loaded_stdout m = [].
Proof.
  destruct (module_load Demo.online) as [m|e] eqn:E; [|vm_compute in E; discriminate E].
  destruct (module_load_bindings Demo.online m E) as [Hall Hout].
  unfold declarations in Hall.
  destruct (loaded_languages m) as [|b0 [|[var pl] bs]] eqn:Hl;
    inversion Hall as [|? ? ? ? _ Hrest]; subst;
    inversion Hrest as [|? ? ? ? H1 _]; subst.
  unfold bound_by in H1. simpl in H1. destruct H1 as (Hvar & Hname & Hattr & _).
  subst var. exists m, pl.
  split; [reflexivity|]. split; [rewrite Hl; reflexivity|]. split; [exact Hname|].
  split; [exact Hattr|].
  vm_compute in E. injection E as <-. reflexivity.
Defined.

(** ** The group and its animations *)

(** X16: [uncreate] mirrors [create]: it returns as many animations, on the
    same mobjects in the same order and with the same keyword arguments, each
    the inverse of the one [create] returns ([FadeOut] for [FadeIn],
    [Uncreate] for [AddTextLetterByLetter]); there are two of them, or four. *)
Theorem uncreate_mirrors_create {Mob K : Type} (truthy : Mob -> bool)
    (self : CodeBlockObj Mob) (kwargs : K) :
  Animations.uncreate truthy self kwargs = map inverse (Animations.create truthy self kwargs)
  /\ map target (Animations.uncreate truthy self kwargs)
     = map target (Animations.create truthy self kwargs)
  /\ (length (Animations.create truthy self kwargs) = 2%nat
      \/ length (Animations.create truthy self kwargs) = 4%nat).
Proof.
  unfold Animations.uncreate, Animations.create.
  destruct (Animations.has_title truthy self) as [[t tb]|]; simpl; auto.
Qed.

(** X17: the group built by the constructor has the layout its docstrings
    give: child 0 is [code_background], child 1 is [code], child 2 is
    [title_background] and child 3 is [title], the last two being absent
    (and the attributes [None]) when no language is given.  [create] animates
    children of the group in index order: both children without a language,
    and all four with a language whose title and title background are truthy. *)
Theorem children_match_docstrings {Mob K : Type} (truthy : Mob -> bool)
    (language' : option ProgrammingLanguage)
    (background_rect markup lang_background lang_name : Mob) (kwargs : K) :
  let self := Animations.init_attrs language' background_rect markup
                lang_background lang_name in
  submobjects self !! 0%nat = Some (code_background self)
  /\ submobjects self !! 1%nat = Some (code self)
  /\ submobjects self !! 2%nat = title_background self
  /\ submobjects self !! 3%nat = title self
  /\ length (submobjects self)
     = match language' with Some _ => 4%nat | None => 2%nat end
  /\ map target (Animations.create truthy self kwargs)
     = take (length (Animations.create truthy self kwargs)) (submobjects self)
  /\ (language' = None ->
      map target (Animations.create truthy self kwargs) = submobjects self)
  /\ (is_Some language' -> truthy lang_name = true -> truthy lang_background = true ->
      map target (Animations.create truthy self kwargs) = submobjects self).
Proof.
  unfold Animations.create, Animations.has_title, Animations.init_attrs.
  destruct language' as [pl|]; simpl.
  - split_and!; try reflexivity.
    + destruct (truthy lang_name); [destruct (truthy lang_background)|]; reflexivity.
    + intros H. discriminate H.
    + intros _ -> ->. reflexivity.
  - split_and!; reflexivity.
Qed.

Lemma children_match_docstrings_witness :
  map target
    (Animations.create (fun m : string => negb (String.eqb m EmptyString))
       (Animations.init_attrs None "rect" "markup" "unused" "unused") tt)
  = ["rect"; "markup"]
  /\ map target
       (Animations.create (fun m : string => negb (String.eqb m EmptyString))
          (Animations.init_attrs (Some (mkProgrammingLanguage "C" None None))
             "rect" "markup" "title rect" "title") tt)
     = ["rect"; "markup"; "title rect"; "title"].
Proof.
  split.
  - pose proof (children_match_docstrings
                  (fun m : string => negb (String.eqb m EmptyString))
                  None "rect" "markup" "unused" "unused" tt) as H.
    cbv zeta in H. destruct H as (_ & _ & _ & _ & _ & _ & Hnone & _).
    apply Hnone. reflexivity.
  - pose proof (children_match_docstrings
                  (fun m : string => negb (String.eqb m EmptyString))
                  (Some (mkProgrammingLanguage "C" None None))
                  "rect" "markup" "title rect" "title" tt) as H.
    cbv zeta in H. destruct H as (_ & _ & _ & _ & _ & _ & _ & Hsome).
    apply Hsome; [eexists; reflexivity|reflexivity|reflexivity].
Defined.
